(** * The allknn and fastmks command-line drivers of mlpack

    The two executables [allknn_main.cpp] and [fastmks_main.cpp] are
    straight-line drivers: they read their command-line parameters, load one or
    two matrices, validate [k] (and the leaf size or the kernel name), possibly
    warn about conflicting flags, pick one search configuration, run it and
    save the two result matrices.

    Each [main] is embedded as a function from the command line and the outside
    world (the files that can be loaded, the outcomes of the random draws) to
    the list of library calls it performs, in program order, together with the
    way it ends.  The libraries themselves (trees, search objects, Unmap, the
    loader, the logger) are not part of these sources: a call to them is an
    event of the trace, and a call that builds a tree, searches, unmaps or
    saves is taken to return.  The messages on [Log::Info] and the timers are
    left out of the trace. *)

From Stdlib Require Import ZArith NArith QArith String List Bool Lia.
Import ListNotations.
Local Close Scope Q_scope.
Local Open Scope string_scope.

(** ** Data *)

(** An [arma::mat] as far as the drivers look at it: its shape.  After
    [data::Load] a column is a point and a row is a dimension. *)
Record mat := Mat { n_rows : N; n_cols : N }.

Definition n_elem (m : mat) : N := (n_rows m * n_cols m)%N.

(** A default-constructed [arma::mat]. *)
Definition empty_mat : mat := Mat 0 0.

(** The product of two matrices; Armadillo raises [std::logic_error] on
    incompatible shapes. *)
Definition mat_mul (a b : mat) : option mat :=
  if (n_cols a =? n_rows b)%N then Some (Mat (n_rows a) (n_cols b)) else None.

(** [size_t x = <int>]: the conversion of a signed integer to a 64-bit
    unsigned one wraps around. *)
Definition size_t_of_int (z : Z) : N := Z.to_N (z mod 2 ^ 64).

(** A [double] is only passed along by the drivers, never computed with: the
    decimal literals of the source are kept as rationals. *)
Definition double := Q.

(** The kernels fastmks can instantiate, with their constructor arguments. *)
Inductive Kernel :=
| LinearKernel
| PolynomialKernel (degree offset : double)
| CosineDistance
| GaussianKernel (bandwidth : double)
| EpanechnikovKernel (bandwidth : double)
| TriangularKernel (bandwidth : double)
| HyperbolicTangentKernel (scale offset : double).

Inductive Metric :=
| EuclideanDistance
| IPMetric (kernel : Kernel).

(** The two matrices of a driver. *)
Inductive Dataset := RefSet | QuerySet.

(** The two permutation vectors of the kd-tree path of allknn. *)
Inductive PermMap := oldFromNewRefs | oldFromNewQueries.

(** A tree constructor call.  The R*-tree is built with
    [(data, leafSize, leafSize * 0.4, 5, 2, 0)]: only [leafSize] varies. *)
Inductive Tree :=
| KDTree (oldFromNew : PermMap) (leafSize : N)
| RStarTree (leafSize : N)
| CoverTree (metric : Metric) (base : double).

(** How a search object is constructed: on the raw reference matrix, as
    [(referenceData, false, naive)] or [(referenceData, kernel, false, naive)],
    with the two booleans in the order the call passes them; or on a reference
    tree built beforehand, as [(&refTree, singleMode)]. *)
Inductive Source :=
| OnMatrix (flag1 flag2 : bool)
| OnTree (single : bool).

(** The three overloads of [Search]. *)
Inductive QuerySide :=
| SelfQuery      (* Search(k, ...): the reference set is its own query set *)
| QueryPoints    (* Search(queryData, k, ...) *)
| QueryTree.     (* Search(&queryTree, k, ...) *)

(** Where [Search] writes: the matrices that are saved in the end
    ([neighbors]/[distances], [indices]/[kernels]), or the intermediate
    [neighborsOut]/[distancesOut] of the kd-tree path. *)
Inductive Buffers := Final | Scratch.

Inductive Output := Distances | Neighbors | Kernels | Indices.

Inductive Warning :=
| SingleIgnored       (* "--single_mode ignored because --naive is present." *)
| CoverOverridesR.    (* "--cover_tree overrides --r_tree." *)

Inductive FatalMessage :=
| CannotLoad (file : string)
| InvalidK (k cols : N)
| InvalidLeafSize (ls : Z)
| InvalidKernel (name : string).

Inductive Event :=
| RandomSeed (seed : option N)             (* None: std::time(NULL) *)
| Loaded (file : string) (into : Dataset)
| LogWarn (w : Warning)
| LogFatal (m : FatalMessage)
| Projected (d : Dataset)                  (* d = q * d *)
| BuildTree (t : Tree) (on : Dataset)
| Construct (m : Metric) (src : Source)
| Search (q : QuerySide) (k : N) (out : Buffers)
| Unmap (refMap : PermMap) (queryMap : option PermMap)
| Save (file : string) (what : Output).

(** ** Runs *)

(** The ways a driver stops before the end of [main]. *)
Inductive Exit :=
| Fatal            (* a line was completed on Log::Fatal *)
| ArmaLogicError   (* an Armadillo size check failed *)
| Spinning.        (* the random-basis loop has used up the known draws *)

Inductive Result (A : Type) :=
| Ok (a : A)
| Stop (e : Exit).
Arguments Ok {A} a.
Arguments Stop {A} e.

Definition Run (A : Type) : Type := (list Event * Result A)%type.

Definition trace {A} (r : Run A) : list Event := fst r.
Definition outcome {A} (r : Run A) : Result A := snd r.

Definition ret {A} (a : A) : Run A := ([], Ok a).

Definition bind {A B} (m : Run A) (f : A -> Run B) : Run B :=
  match m with
  | (t, Ok a) => let (t', r) := f a in ((t ++ t')%list, r)
  | (t, Stop e) => (t, Stop e)
  end.

Notation "x <- m ;; f" := (bind m (fun x => f))
  (at level 61, m at next level, right associativity).
Notation "m ;;; f" := (bind m (fun _ => f))
  (at level 61, right associativity).

Definition emit (e : Event) : Run unit := ([e], Ok tt).

Definition stop {A} (e : Exit) : Run A := ([], Stop e).

Definition when (b : bool) (m : Run unit) : Run unit :=
  if b then m else ret tt.

(** Modelled from the spec: the logger is not part of these sources.  A message
    on [Log::Fatal] is "fatal, aborts before any search": the program ends
    when the line is completed. *)
Definition fatal {A} (m : FatalMessage) : Run A := ([LogFatal m], Stop Fatal).

(** ** The outside world *)

(** One pass of the random-basis loop: whether [arma::qr] succeeded and whether
    the determinant of the corrected factor is non-negative. *)
Record Draw := { qr_ok : bool; det_nonneg : bool }.

Record World := {
  files : string -> option mat;   (* what data::Load finds under a name *)
  draws : list Draw               (* the passes of the random-basis loop *)
}.

(** [data::Load(file, matrix, true)]: the third argument makes a failed load
    fatal. *)
Definition Load (w : World) (file : string) (into : Dataset) : Run mat :=
  match files w file with
  | Some m => ([Loaded file into], Ok m)
  | None => fatal (CannotLoad file)
  end.

(** ** Command-line parameters *)

(** A parameter declared with a default is [None] when it was not passed:
    [CLI::HasParam] tells whether it was, [CLI::GetParam] gives the value
    passed or else the declared default. *)
Definition HasParam {A} (p : option A) : bool :=
  match p with Some _ => true | None => false end.

Definition GetParam {A} (default : A) (p : option A) : A :=
  match p with Some v => v | None => default end.

(** ** Reading a trace *)

Definition is_search (e : Event) : bool :=
  match e with Search _ _ _ => true | _ => false end.

Definition is_unmap (e : Event) : bool :=
  match e with Unmap _ _ => true | _ => false end.

Definition is_build (e : Event) : bool :=
  match e with BuildTree _ _ => true | _ => false end.

Definition is_construct (e : Event) : bool :=
  match e with Construct _ _ => true | _ => false end.

Definition is_save (e : Event) : bool :=
  match e with Save _ _ => true | _ => false end.

Definition searches (t : list Event) : list Event := filter is_search t.
Definition unmaps (t : list Event) : list Event := filter is_unmap t.
Definition builds (t : list Event) : list Event := filter is_build t.
Definition constructs (t : list Event) : list Event := filter is_construct t.
Definition saves (t : list Event) : list Event := filter is_save t.

(** The calls into the search engine, in order. *)
Definition engine (t : list Event) : list Event :=
  filter (fun e => is_build e || is_construct e || is_search e || is_unmap e) t.

(** A trace finishes with [suffix] when it ends with it and neither searches
    nor unmaps before it. *)
Definition finishes_with (t suffix : list Event) : Prop :=
  exists pre, t = (pre ++ suffix)%list /\ searches pre = [] /\ unmaps pre = [].

(** ** allknn *)

Module AllkNN.

Record Args := {
  reference_file : string;          (* PARAM_STRING_REQ *)
  distances_file : string;          (* PARAM_STRING_REQ *)
  neighbors_file : string;          (* PARAM_STRING_REQ *)
  k : Z;                            (* PARAM_INT_REQ *)
  query_file : option string;       (* PARAM_STRING, default "" *)
  leaf_size : option Z;             (* PARAM_INT, default 20 *)
  naive : bool;                     (* PARAM_FLAG *)
  single_mode : bool;               (* PARAM_FLAG *)
  cover_tree : bool;                (* PARAM_FLAG *)
  r_tree : bool;                    (* PARAM_FLAG *)
  random_basis : bool;              (* PARAM_FLAG *)
  seed : option Z                   (* PARAM_INT, default 0 *)
}.

(** The [while (true)] loop of the random basis: a pass that fails [arma::qr]
    or yields a negative determinant is retried; the accepted pass multiplies
    the reference matrix, and the query matrix when there is a query file, by
    the [d x d] basis, and leaves the loop. *)
Fixpoint random_basis_loop (ds : list Draw) (queryFile : string)
    (referenceData queryData : mat) : Run (mat * mat) :=
  match ds with
  | [] => stop Spinning
  | d :: rest =>
      if qr_ok d && det_nonneg d then
        let q := Mat (n_rows referenceData) (n_rows referenceData) in
        match mat_mul q referenceData with
        | None => stop ArmaLogicError
        | Some referenceData' =>
            emit (Projected RefSet) ;;;
            if negb (queryFile =? "") then
              match mat_mul q queryData with
              | None => stop ArmaLogicError
              | Some queryData' =>
                  emit (Projected QuerySet) ;;;
                  ret (referenceData', queryData')
              end
            else ret (referenceData', queryData)
        end
      else random_basis_loop rest queryFile referenceData queryData
  end.

Definition main (a : Args) (w : World) : Run unit :=
  emit (RandomSeed (if negb (GetParam 0%Z (seed a) =? 0)%Z
                    then Some (size_t_of_int (GetParam 0%Z (seed a)))
                    else None)) ;;;
  let referenceFile := reference_file a in
  let queryFile := GetParam "" (query_file a) in
  let distancesFile := distances_file a in
  let neighborsFile := neighbors_file a in
  let lsInt := GetParam 20%Z (leaf_size a) in
  let k := size_t_of_int (k a) in
  let naive := naive a in
  let singleMode := single_mode a in
  let randomBasis := random_basis a in
  referenceData <- Load w referenceFile RefSet ;;
  queryData <- (if negb (queryFile =? "")
                then Load w queryFile QuerySet
                else ret empty_mat) ;;
  (* Sanity check on k value: only the upper bound is tested. *)
  when (n_cols referenceData <? k)%N
       (fatal (InvalidK k (n_cols referenceData))) ;;;
  (* Sanity check on leaf size. *)
  when (lsInt <? 1)%Z (fatal (InvalidLeafSize lsInt)) ;;;
  let leafSize := size_t_of_int lsInt in
  (* Naive mode overrides single mode. *)
  when (singleMode && naive) (emit (LogWarn SingleIgnored)) ;;;
  (* cover_tree overrides r_tree. *)
  when (cover_tree a && r_tree a) (emit (LogWarn CoverOverridesR)) ;;;
  (* See if we want to project onto a random basis. *)
  data <- (if randomBasis
           then random_basis_loop (draws w) queryFile referenceData queryData
           else ret (referenceData, queryData)) ;;
  (if naive then
     emit (Construct EuclideanDistance (OnMatrix false naive)) ;;;
     if negb (GetParam "" (query_file a) =? "")
     then emit (Search QueryPoints k Final)
     else emit (Search SelfQuery k Final)
   else if negb (cover_tree a) then
     if negb (r_tree a) then
       (* We're using the kd-tree. *)
       emit (BuildTree (KDTree oldFromNewRefs leafSize) RefSet) ;;;
       emit (Construct EuclideanDistance (OnTree singleMode)) ;;;
       (if negb (GetParam "" (query_file a) =? "") then
          if negb singleMode then
            emit (BuildTree (KDTree oldFromNewQueries leafSize) QuerySet) ;;;
            emit (Search QueryTree k Scratch)
          else emit (Search QueryPoints k Scratch)
        else emit (Search SelfQuery k Scratch)) ;;;
       (* Map the results back to the correct places. *)
       if negb (GetParam "" (query_file a) =? "") && negb singleMode then
         emit (Unmap oldFromNewRefs (Some oldFromNewQueries))
       else if negb (GetParam "" (query_file a) =? "") && singleMode then
         emit (Unmap oldFromNewRefs None)
       else
         emit (Unmap oldFromNewRefs (Some oldFromNewRefs))
     else
       emit (BuildTree (RStarTree leafSize) RefSet) ;;;
       emit (Construct EuclideanDistance (OnTree singleMode)) ;;;
       if negb (GetParam "" (query_file a) =? "") then
         if negb singleMode then
           emit (BuildTree (RStarTree leafSize) QuerySet) ;;;
           emit (Search QueryTree k Final)
         else emit (Search QueryPoints k Final)
       else emit (Search SelfQuery k Final)
   else
     (* Cover trees. *)
     emit (BuildTree (CoverTree EuclideanDistance 1.3%Q) RefSet) ;;;
     emit (Construct EuclideanDistance (OnTree singleMode)) ;;;
     if HasParam (query_file a) then
       if negb singleMode then
         emit (BuildTree (CoverTree EuclideanDistance 1.3%Q) QuerySet) ;;;
         emit (Search QueryTree k Final)
       else emit (Search QueryPoints k Final)
     else emit (Search SelfQuery k Final)) ;;;
  (* Save output. *)
  emit (Save distancesFile Distances) ;;;
  emit (Save neighborsFile Neighbors).

End AllkNN.

(** ** fastmks *)

Module FastMKS.

Record Args := {
  reference_file : string;          (* PARAM_STRING_REQ *)
  query_file : option string;       (* PARAM_STRING, default "" *)
  k : Z;                            (* PARAM_INT_REQ *)
  kernels_file : option string;     (* PARAM_STRING, default "" *)
  indices_file : option string;     (* PARAM_STRING, default "" *)
  kernel : option string;           (* PARAM_STRING, default "linear" *)
  naive : bool;                     (* PARAM_FLAG *)
  single : bool;                    (* PARAM_FLAG *)
  base : option double;             (* PARAM_DOUBLE, default 2.0 *)
  degree : option double;           (* PARAM_DOUBLE, default 2.0 *)
  offset : option double;           (* PARAM_DOUBLE, default 0.0 *)
  bandwidth : option double;        (* PARAM_DOUBLE, default 1.0 *)
  scale : option double             (* PARAM_DOUBLE, default 1.0 *)
}.

(** Run FastMKS on a single dataset for the given kernel type. *)
Definition RunFastMKS1 (single naive : bool) (base : double) (k : N)
    (kernel : Kernel) : Run unit :=
  if naive then
    (* No need for trees. *)
    emit (Construct (IPMetric kernel) (OnMatrix false naive)) ;;;
    emit (Search SelfQuery k Final)
  else
    (* Create the tree with the specified base. *)
    emit (BuildTree (CoverTree (IPMetric kernel) base) RefSet) ;;;
    emit (Construct (IPMetric kernel) (OnTree single)) ;;;
    emit (Search SelfQuery k Final).

(** Run FastMKS for a given query and reference set using the given kernel
    type. *)
Definition RunFastMKS2 (single naive : bool) (base : double) (k : N)
    (kernel : Kernel) : Run unit :=
  if naive then
    (* No need for trees. *)
    emit (Construct (IPMetric kernel) (OnMatrix false naive)) ;;;
    emit (Search QueryPoints k Final)
  else
    (* Create the tree with the specified base. *)
    emit (BuildTree (CoverTree (IPMetric kernel) base) RefSet) ;;;
    emit (Construct (IPMetric kernel) (OnTree single)) ;;;
    if single then emit (Search QueryPoints k Final)
    else
      emit (BuildTree (CoverTree (IPMetric kernel) base) QuerySet) ;;;
      emit (Search QueryTree k Final).

(** The chain of comparisons on the kernel name; it is written out twice in
    [main], once around each overload of [RunFastMKS].  A name that matches
    none of the seven comparisons runs nothing. *)
Definition dispatch (kernelType : string)
    (degree offset bandwidth scale : double)
    (run : Kernel -> Run unit) : Run unit :=
  if kernelType =? "linear" then run LinearKernel
  else if kernelType =? "polynomial" then run (PolynomialKernel degree offset)
  else if kernelType =? "cosine" then run CosineDistance
  else if kernelType =? "gaussian" then run (GaussianKernel bandwidth)
  else if kernelType =? "epanechnikov" then run (EpanechnikovKernel bandwidth)
  else if kernelType =? "triangular" then run (TriangularKernel bandwidth)
  else if kernelType =? "hyptan" then
    run (HyperbolicTangentKernel scale offset)
  else ret tt.

(** The check on the kernel type, as [main] writes it. *)
Definition kernel_check (kernelType : string) : bool :=
  negb (kernelType =? "linear") && negb (kernelType =? "polynomial") &&
  negb (kernelType =? "cosine") && negb (kernelType =? "gaussian") &&
  negb (kernelType =? "graph") && negb (kernelType =? "approxGraph") &&
  negb (kernelType =? "triangular") && negb (kernelType =? "hyptan") &&
  negb (kernelType =? "inv-mq") && negb (kernelType =? "epanechnikov").

Definition main (a : Args) (w : World) : Run unit :=
  let referenceFile := reference_file a in
  let k := size_t_of_int (k a) in
  let naive := naive a in
  let single := single a in
  let base := GetParam 2.0%Q (base a) in
  let kernelType := GetParam "linear" (kernel a) in
  let degree := GetParam 2.0%Q (degree a) in
  let offset := GetParam 0.0%Q (offset a) in
  let bandwidth := GetParam 1.0%Q (bandwidth a) in
  let scale := GetParam 1.0%Q (scale a) in
  referenceData <- Load w referenceFile RefSet ;;
  (* Sanity check on k value. *)
  when (n_cols referenceData <? k)%N
       (fatal (InvalidK k (n_cols referenceData))) ;;;
  (* Check on kernel type. *)
  when (kernel_check kernelType) (fatal (InvalidKernel kernelType)) ;;;
  (* Load the query matrix, if we can. *)
  queryData <- (if HasParam (query_file a)
                then Load w (GetParam "" (query_file a)) QuerySet
                else ret empty_mat) ;;
  (* Naive mode overrides single mode. *)
  when (naive && single) (emit (LogWarn SingleIgnored)) ;;;
  (if (n_elem queryData =? 0)%N
   then dispatch kernelType degree offset bandwidth scale
          (RunFastMKS1 single naive base k)
   else dispatch kernelType degree offset bandwidth scale
          (RunFastMKS2 single naive base k)) ;;;
  (* Save output, if we were asked to. *)
  when (HasParam (kernels_file a))
       (emit (Save (GetParam "" (kernels_file a)) Kernels)) ;;;
  when (HasParam (indices_file a))
       (emit (Save (GetParam "" (indices_file a)) Indices)).

End FastMKS.

(** The kernel names of the parameter's help text: each has a branch in the
    dispatch. *)
Definition supported_kernels : list string :=
  ["linear"; "polynomial"; "cosine"; "gaussian"; "epanechnikov"; "triangular";
   "hyptan"].

(** The other names the check on the kernel type lets through. *)
Definition stale_kernels : list string := ["graph"; "approxGraph"; "inv-mq"].

(** ** Either driver *)

Inductive Program :=
| Allknn (a : AllkNN.Args)
| Fastmks (a : FastMKS.Args).

Definition run (p : Program) (w : World) : Run unit :=
  match p with
  | Allknn a => AllkNN.main a w
  | Fastmks a => FastMKS.main a w
  end.

Definition p_reference_file (p : Program) : string :=
  match p with
  | Allknn a => AllkNN.reference_file a
  | Fastmks a => FastMKS.reference_file a
  end.

Definition p_query_file (p : Program) : option string :=
  match p with
  | Allknn a => AllkNN.query_file a
  | Fastmks a => FastMKS.query_file a
  end.

(** [k] as the driver holds it, in a [size_t]. *)
Definition p_k (p : Program) : N :=
  match p with
  | Allknn a => size_t_of_int (AllkNN.k a)
  | Fastmks a => size_t_of_int (FastMKS.k a)
  end.

Definition p_naive (p : Program) : bool :=
  match p with
  | Allknn a => AllkNN.naive a
  | Fastmks a => FastMKS.naive a
  end.

Definition p_single (p : Program) : bool :=
  match p with
  | Allknn a => AllkNN.single_mode a
  | Fastmks a => FastMKS.single a
  end.

(** ** Sample invocations *)

Definition no_draws : list Draw := [].

(** A disk with a 3-dimensional reference set of 5 points, a 3-dimensional
    query set of 4 points, a 2-dimensional query set of 4 points, an empty
    file, and nothing else. *)
Definition disk : World :=
  {| files := fun f =>
       if f =? "ref.csv" then Some (Mat 3 5)
       else if f =? "query.csv" then Some (Mat 3 4)
       else if f =? "query2d.csv" then Some (Mat 2 4)
       else if f =? "empty.csv" then Some (Mat 0 0)
       else None;
     draws := no_draws |}.

Definition allknn_args (ref : string) (k : Z) (query : option string)
    (naive single cover rtree : bool) : AllkNN.Args :=
  {| AllkNN.reference_file := ref;
     AllkNN.distances_file := "d.csv";
     AllkNN.neighbors_file := "n.csv";
     AllkNN.k := k;
     AllkNN.query_file := query;
     AllkNN.leaf_size := None;
     AllkNN.naive := naive;
     AllkNN.single_mode := single;
     AllkNN.cover_tree := cover;
     AllkNN.r_tree := rtree;
     AllkNN.random_basis := false;
     AllkNN.seed := None |}.

Definition fastmks_args (ref : string) (k : Z) (query kernel : option string)
    (naive single : bool) : FastMKS.Args :=
  {| FastMKS.reference_file := ref;
     FastMKS.query_file := query;
     FastMKS.k := k;
     FastMKS.kernels_file := Some "k.csv";
     FastMKS.indices_file := Some "i.csv";
     FastMKS.kernel := kernel;
     FastMKS.naive := naive;
     FastMKS.single := single;
     FastMKS.base := None;
     FastMKS.degree := None;
     FastMKS.offset := None;
     FastMKS.bandwidth := None;
     FastMKS.scale := None |}.

(** ** More ways to read a trace *)

Definition is_fatal_log (e : Event) : bool :=
  match e with LogFatal _ => true | _ => false end.

Definition is_projection (e : Event) : bool :=
  match e with Projected _ => true | _ => false end.

Definition is_seed (e : Event) : bool :=
  match e with RandomSeed _ => true | _ => false end.

Definition is_query_load (e : Event) : bool :=
  match e with Loaded _ QuerySet => true | _ => false end.

(** The calls that [engine] selects. *)
Definition is_engine_call (e : Event) : bool :=
  is_build e || is_construct e || is_search e || is_unmap e.

Definition fatal_logs (t : list Event) : list Event := filter is_fatal_log t.
Definition projections (t : list Event) : list Event := filter is_projection t.
Definition seeds (t : list Event) : list Event := filter is_seed t.
Definition query_loads (t : list Event) : list Event := filter is_query_load t.

(** A trace ends with [suffix] after a part that has no event selected by
    [f]. *)
Definition ends_with (f : Event -> bool) (t suffix : list Event) : Prop :=
  exists pre, t = (pre ++ suffix)%list /\ filter f pre = [].

(** The kind and the parameters of a query tree agree with those of the
    reference tree; a kd-tree fills the permutation of its own side. *)
Definition same_variant (reference query : Tree) : Prop :=
  match reference, query with
  | KDTree mr lr, KDTree mq lq =>
      mr = oldFromNewRefs /\ mq = oldFromNewQueries /\ lr = lq
  | RStarTree lr, RStarTree lq => lr = lq
  | CoverTree mr br, CoverTree mq bq => mr = mq /\ br = bq
  | _, _ => False
  end.

(** A pass of the random-basis loop is accepted when the factorization
    succeeded and the determinant is not negative. *)
Definition accepted (d : Draw) : bool := qr_ok d && det_nonneg d.

(** Modelled from the spec: the search objects (neighbor_search.hpp,
    fastmks.hpp) are not part of these sources.  "If naive mode is requested,
    skip index construction entirely and evaluate all query x reference pairs
    directly": a search object constructed on the raw reference matrix with
    its naive flag set -- the last boolean of the call, the variable [naive]
    in both drivers -- holds no tree, and a search with it evaluates every
    pair of a query point and a reference point; the query points are those
    of the reference matrix itself when the reference set is its own query
    set.  A search object on a tree prunes. *)
Inductive Evaluation :=
| AllPairs (queries references : N)
| BranchAndBound.

Definition evaluation (src : Source) (q : QuerySide)
    (referenceData queryData : mat) : Evaluation :=
  match src with
  | OnMatrix _ true =>
      match q with
      | SelfQuery => AllPairs (n_cols referenceData) (n_cols referenceData)
      | _ => AllPairs (n_cols queryData) (n_cols referenceData)
      end
  | _ => BranchAndBound
  end.

(** ** Command lines that differ in one parameter *)

Definition with_leaf_size (a : AllkNN.Args) (ls : option Z) : AllkNN.Args :=
  {| AllkNN.reference_file := AllkNN.reference_file a;
     AllkNN.distances_file := AllkNN.distances_file a;
     AllkNN.neighbors_file := AllkNN.neighbors_file a;
     AllkNN.k := AllkNN.k a;
     AllkNN.query_file := AllkNN.query_file a;
     AllkNN.leaf_size := ls;
     AllkNN.naive := AllkNN.naive a;
     AllkNN.single_mode := AllkNN.single_mode a;
     AllkNN.cover_tree := AllkNN.cover_tree a;
     AllkNN.r_tree := AllkNN.r_tree a;
     AllkNN.random_basis := AllkNN.random_basis a;
     AllkNN.seed := AllkNN.seed a |}.

Definition with_seed (a : AllkNN.Args) (s : option Z) : AllkNN.Args :=
  {| AllkNN.reference_file := AllkNN.reference_file a;
     AllkNN.distances_file := AllkNN.distances_file a;
     AllkNN.neighbors_file := AllkNN.neighbors_file a;
     AllkNN.k := AllkNN.k a;
     AllkNN.query_file := AllkNN.query_file a;
     AllkNN.leaf_size := AllkNN.leaf_size a;
     AllkNN.naive := AllkNN.naive a;
     AllkNN.single_mode := AllkNN.single_mode a;
     AllkNN.cover_tree := AllkNN.cover_tree a;
     AllkNN.r_tree := AllkNN.r_tree a;
     AllkNN.random_basis := AllkNN.random_basis a;
     AllkNN.seed := s |}.

Definition with_random_basis (a : AllkNN.Args) : AllkNN.Args :=
  {| AllkNN.reference_file := AllkNN.reference_file a;
     AllkNN.distances_file := AllkNN.distances_file a;
     AllkNN.neighbors_file := AllkNN.neighbors_file a;
     AllkNN.k := AllkNN.k a;
     AllkNN.query_file := AllkNN.query_file a;
     AllkNN.leaf_size := AllkNN.leaf_size a;
     AllkNN.naive := AllkNN.naive a;
     AllkNN.single_mode := AllkNN.single_mode a;
     AllkNN.cover_tree := AllkNN.cover_tree a;
     AllkNN.r_tree := AllkNN.r_tree a;
     AllkNN.random_basis := true;
     AllkNN.seed := AllkNN.seed a |}.

Definition with_kernel_parameters (a : FastMKS.Args)
    (degree offset bandwidth scale : option double) : FastMKS.Args :=
  {| FastMKS.reference_file := FastMKS.reference_file a;
     FastMKS.query_file := FastMKS.query_file a;
     FastMKS.k := FastMKS.k a;
     FastMKS.kernels_file := FastMKS.kernels_file a;
     FastMKS.indices_file := FastMKS.indices_file a;
     FastMKS.kernel := FastMKS.kernel a;
     FastMKS.naive := FastMKS.naive a;
     FastMKS.single := FastMKS.single a;
     FastMKS.base := FastMKS.base a;
     FastMKS.degree := degree;
     FastMKS.offset := offset;
     FastMKS.bandwidth := bandwidth;
     FastMKS.scale := scale |}.

Definition with_base (a : FastMKS.Args) (base : option double)
    : FastMKS.Args :=
  {| FastMKS.reference_file := FastMKS.reference_file a;
     FastMKS.query_file := FastMKS.query_file a;
     FastMKS.k := FastMKS.k a;
     FastMKS.kernels_file := FastMKS.kernels_file a;
     FastMKS.indices_file := FastMKS.indices_file a;
     FastMKS.kernel := FastMKS.kernel a;
     FastMKS.naive := FastMKS.naive a;
     FastMKS.single := FastMKS.single a;
     FastMKS.base := base;
     FastMKS.degree := FastMKS.degree a;
     FastMKS.offset := FastMKS.offset a;
     FastMKS.bandwidth := FastMKS.bandwidth a;
     FastMKS.scale := FastMKS.scale a |}.

Definition with_outputs (a : FastMKS.Args) (kernels indices : option string)
    : FastMKS.Args :=
  {| FastMKS.reference_file := FastMKS.reference_file a;
     FastMKS.query_file := FastMKS.query_file a;
     FastMKS.k := FastMKS.k a;
     FastMKS.kernels_file := kernels;
     FastMKS.indices_file := indices;
     FastMKS.kernel := FastMKS.kernel a;
     FastMKS.naive := FastMKS.naive a;
     FastMKS.single := FastMKS.single a;
     FastMKS.base := FastMKS.base a;
     FastMKS.degree := FastMKS.degree a;
     FastMKS.offset := FastMKS.offset a;
     FastMKS.bandwidth := FastMKS.bandwidth a;
     FastMKS.scale := FastMKS.scale a |}.

(** The sample disk with the passes of the random-basis loop given. *)
Definition disk_with (ds : list Draw) : World :=
  {| files := files disk; draws := ds |}.

(** * Properties *)

(** ** Traces *)

Lemma filter_none {A} (f : A -> bool) (l : list A) :
  (forall x, In x l -> f x = false) -> filter f l = [].
Proof.
  induction l as [|x l IH]; intros H; [reflexivity|].
  cbn. rewrite (H x (or_introl eq_refl)).
  apply IH. intros y Hy. apply H. now right.
Qed.

(** The random-basis loop only projects. *)
Lemma random_basis_loop_events ds qf r q e :
  In e (trace (AllkNN.random_basis_loop ds qf r q)) ->
  e = Projected RefSet \/ e = Projected QuerySet.
Proof.
  induction ds as [|d ds IH]; cbn; [tauto|].
  destruct (qr_ok d && det_nonneg d); [|exact IH].
  unfold mat_mul; cbn. rewrite N.eqb_refl. cbn.
  destruct (negb (qf =? "")); cbn.
  - destruct (n_rows r =? n_rows q)%N; cbn; intuition auto.
  - intuition auto.
Qed.

(** With a query file whose matrix has another number of rows than the
    reference matrix, the loop never hands the two matrices on: the product
    with the query matrix stops the accepted pass. *)
Lemma random_basis_loop_mismatch ds qf r q :
  qf <> "" -> n_rows r <> n_rows q ->
  forall x, outcome (AllkNN.random_basis_loop ds qf r q) <> Ok x.
Proof.
  intros Hqf Hne x. induction ds as [|d ds IH]; cbn; [discriminate|].
  destruct (qr_ok d && det_nonneg d); [|exact IH].
  unfold mat_mul; cbn. rewrite N.eqb_refl. cbn.
  destruct qf as [|c s]; [congruence|]. cbn.
  destruct (N.eqb_spec (n_rows r) (n_rows q)); [contradiction|].
  cbn. discriminate.
Qed.

Lemma projected_filter (f : Event -> bool) (t : list Event) :
  (forall e, In e t -> e = Projected RefSet \/ e = Projected QuerySet) ->
  (forall d, f (Projected d) = false) ->
  filter f t = [].
Proof.
  intros Ht Hf. apply filter_none. intros e He.
  destruct (Ht e He) as [-> | ->]; apply Hf.
Qed.

Lemma filter_cons_app {A} (f : A -> bool) (x : A) (l : list A) :
  filter f (x :: l) = ((if f x then [x] else []) ++ filter f l)%list.
Proof. cbn. destruct (f x); reflexivity. Qed.

Lemma finishes_here (s : list Event) : finishes_with s s.
Proof. exists []. repeat split. Qed.

Lemma finishes_cons (e : Event) (t s : list Event) :
  is_search e = false -> is_unmap e = false ->
  finishes_with t s -> finishes_with (e :: t) s.
Proof.
  intros Hs Hu (pre & -> & H1 & H2). exists (e :: pre).
  unfold searches, unmaps in *. cbn. rewrite Hs, Hu. auto.
Qed.

Lemma finishes_app (l t s : list Event) :
  searches l = [] -> unmaps l = [] ->
  finishes_with t s -> finishes_with (l ++ t) s.
Proof.
  intros Hs Hu (pre & -> & H1 & H2). exists (l ++ pre)%list.
  unfold searches, unmaps in *.
  rewrite !filter_app, Hs, Hu, H1, H2, app_assoc. auto.
Qed.

(** *** Case analysis on a run *)

Arguments searches : simpl never.
Arguments unmaps : simpl never.
Arguments builds : simpl never.
Arguments constructs : simpl never.
Arguments saves : simpl never.
Arguments engine : simpl never.

(** The random-basis loop is cut out of the run: what is kept of it is that
    its events are projections. *)
Ltac split_loop :=
  match goal with
  | |- context [AllkNN.random_basis_loop ?a ?b ?c ?d] =>
      let E := fresh "E" in
      let t := fresh "t" in
      pose proof (random_basis_loop_events a b c d) as E;
      destruct (AllkNN.random_basis_loop a b c d) as [t [[? ?]|?]];
      cbn in E
  end.

(** One case per file found or missing and per test of the driver. *)
Ltac split_run :=
  repeat first
    [ match goal with
      | |- context [files ?w ?f] => destruct (files w f) as [?|]
      | |- context [(?x <? ?y)%N] => destruct (x <? y)%N eqn:?
      | |- context [(?x <? ?y)%Z] => destruct (x <? y)%Z eqn:?
      | |- context [(?x =? ?y)%Z] => destruct (x =? y)%Z eqn:?
      | |- context [if ?b then _ else _] => is_var b; destruct b
      | |- context [if ?b then _ else _] => destruct b eqn:?
      end; cbn
    | split_loop; cbn ].

(** Evaluates the selections of events of a trace. *)
Ltac filters :=
  unfold searches, unmaps, builds, constructs, saves, engine;
  repeat (rewrite filter_cons_app || rewrite filter_app);
  repeat match goal with
  | E : forall e, In e ?t -> _ |- context [filter ?f ?t] =>
      rewrite (projected_filter f t E) by (intros []; reflexivity)
  end;
  cbn.

Ltac unfold_allknn := unfold AllkNN.main, Load, when; cbn.

Ltac unfold_fastmks :=
  unfold FastMKS.main, FastMKS.dispatch, FastMKS.RunFastMKS1,
    FastMKS.RunFastMKS2, Load, when; cbn.

(** ** The sanity check on k *)

Lemma allknn_k_above_fatal (a : AllkNN.Args) (w : World) (ref : mat) :
  files w (AllkNN.reference_file a) = Some ref ->
  (n_cols ref < size_t_of_int (AllkNN.k a))%N ->
  outcome (AllkNN.main a w) = Stop Fatal /\
  engine (trace (AllkNN.main a w)) = [] /\
  saves (trace (AllkNN.main a w)) = [].
Proof.
  intros Href Hk. apply N.ltb_lt in Hk.
  unfold AllkNN.main, Load. rewrite Href.
  destruct (negb (GetParam "" (AllkNN.query_file a) =? "")).
  - destruct (files w (GetParam "" (AllkNN.query_file a))); cbn; rewrite ?Hk; cbn; auto.
  - cbn. rewrite Hk. cbn. auto.
Qed.

Lemma fastmks_k_above_fatal (a : FastMKS.Args) (w : World) (ref : mat) :
  files w (FastMKS.reference_file a) = Some ref ->
  (n_cols ref < size_t_of_int (FastMKS.k a))%N ->
  outcome (FastMKS.main a w) = Stop Fatal /\
  engine (trace (FastMKS.main a w)) = [] /\
  saves (trace (FastMKS.main a w)) = [].
Proof.
  intros Href Hk. apply N.ltb_lt in Hk.
  unfold FastMKS.main, Load. rewrite Href. cbn. rewrite Hk. cbn. auto.
Qed.

(** A [k] above the number of reference points is fatal in either driver:
    nothing is searched and nothing is saved. *)
Lemma k_above_fatal (p : Program) (w : World) (ref : mat) :
  files w (p_reference_file p) = Some ref ->
  (n_cols ref < p_k p)%N ->
  outcome (run p w) = Stop Fatal /\
  engine (trace (run p w)) = [] /\
  saves (trace (run p w)) = [].
Proof.
  destruct p as [a|a]; cbn.
  - apply allknn_k_above_fatal.
  - apply fastmks_k_above_fatal.
Qed.

Lemma k_above_fatal_sample :
  files disk "ref.csv" = Some (Mat 3 5) /\
  outcome (run (Allknn (allknn_args "ref.csv" 6 None false false false false))
               disk) = Stop Fatal.
Proof.
  split; [reflexivity|].
  apply (k_above_fatal
           (Allknn (allknn_args "ref.csv" 6 None false false false false))
           disk (Mat 3 5)); [reflexivity | cbn; lia].
Defined.

(** A negative [k] wraps around to a huge [size_t]: this is the part of the
    lower bound that unsignedness gives. *)
Lemma negative_k_wraps (z : Z) :
  (- 2 ^ 31 <= z < 0)%Z -> (2 ^ 63 <= size_t_of_int z)%N.
Proof.
  intros Hz. unfold size_t_of_int.
  rewrite <- (Z.mod_add z 1 (2 ^ 64)) by lia.
  rewrite Z.mod_small by lia.
  apply N2Z.inj_le. rewrite Z2N.id by lia.
  change (Z.of_N (2 ^ 63)) with (2 ^ 63)%Z. lia.
Qed.

(** X24.  A negative [k] on the command line is fatal in either driver, for
    any reference matrix of fewer than 2^63 points: it reaches the check as a
    [size_t] of at least 2^63. *)
Lemma negative_k_fatal (p : Program) (w : World) (ref : mat) (z : Z) :
  files w (p_reference_file p) = Some ref ->
  (n_cols ref < 2 ^ 63)%N ->
  (- 2 ^ 31 <= z < 0)%Z ->
  p_k p = size_t_of_int z ->
  outcome (run p w) = Stop Fatal.
Proof.
  intros Href Hc Hz Hk.
  apply (k_above_fatal p w ref Href).
  rewrite Hk. pose proof (negative_k_wraps z Hz). lia.
Qed.

(** C1 (the check as coded).  [k = 0] is not rejected: with five reference
    points and [k = 0] each driver passes its sanity check on [k], runs its
    search with [k = 0] and saves the results.  The message of the check says
    that [k] must be greater than 0; the test is [k > n_cols] alone. *)
Theorem k_zero_is_searched :
  let a := Allknn (allknn_args "ref.csv" 0 None false false false false) in
  let f := Fastmks (fastmks_args "ref.csv" 0 None None false false) in
  p_k a = 0%N /\ p_k f = 0%N /\
  outcome (run a disk) = Ok tt /\
  searches (trace (run a disk)) = [Search SelfQuery 0 Scratch] /\
  saves (trace (run a disk)) = [Save "d.csv" Distances; Save "n.csv" Neighbors] /\
  outcome (run f disk) = Ok tt /\
  searches (trace (run f disk)) = [Search SelfQuery 0 Final] /\
  saves (trace (run f disk)) = [Save "k.csv" Kernels; Save "i.csv" Indices].
Proof.
  cbv zeta. repeat split; vm_compute; reflexivity.
Qed.

(** With no reference point every [k] other than 0 is above the number of
    reference points, hence fatal. *)
Lemma empty_reference_fatal (p : Program) (w : World) (ref : mat) :
  files w (p_reference_file p) = Some ref ->
  n_cols ref = 0%N ->
  p_k p <> 0%N ->
  outcome (run p w) = Stop Fatal /\ engine (trace (run p w)) = [].
Proof.
  intros Href Hc Hk.
  destruct (k_above_fatal p w ref Href) as (H1 & H2 & _); [lia | auto].
Qed.

Lemma empty_reference_fatal_sample :
  outcome (run (Fastmks (fastmks_args "empty.csv" 1 None None false false))
               disk) = Stop Fatal.
Proof.
  apply (empty_reference_fatal
           (Fastmks (fastmks_args "empty.csv" 1 None None false false))
           disk (Mat 0 0)); [reflexivity | reflexivity | cbn; lia].
Defined.

(** C8 (the empty reference set with [k = 0]).  A reference set of zero points
    is not rejected when [k = 0]: the only test is [k > n_cols], here [0 > 0].
    Each driver goes on to build its tree on the empty set, to search it and to
    save. *)
Theorem empty_reference_k_zero_is_searched :
  let a := Allknn (allknn_args "empty.csv" 0 None false false false false) in
  let f := Fastmks (fastmks_args "empty.csv" 0 None None false false) in
  files disk (p_reference_file a) = Some (Mat 0 0) /\
  files disk (p_reference_file f) = Some (Mat 0 0) /\
  outcome (run a disk) = Ok tt /\
  engine (trace (run a disk)) =
    [BuildTree (KDTree oldFromNewRefs 20) RefSet;
     Construct EuclideanDistance (OnTree false);
     Search SelfQuery 0 Scratch;
     Unmap oldFromNewRefs (Some oldFromNewRefs)] /\
  outcome (run f disk) = Ok tt /\
  engine (trace (run f disk)) =
    [BuildTree (CoverTree (IPMetric LinearKernel) 2.0%Q) RefSet;
     Construct (IPMetric LinearKernel) (OnTree false);
     Search SelfQuery 0 Final].
Proof.
  cbv zeta. repeat split; vm_compute; reflexivity.
Qed.

(** ** The kernel name *)

Lemma kernel_check_false (s : string) :
  FastMKS.kernel_check s = false <->
  In s supported_kernels \/ In s stale_kernels.
Proof.
  unfold FastMKS.kernel_check, supported_kernels, stale_kernels. cbn [In].
  rewrite !andb_false_iff, !negb_false_iff, !String.eqb_eq.
  intuition auto.
Qed.

(** X25.  A kernel name that is neither one of the seven supported names nor
    one of the three other names of the check is fatal in fastmks, once the
    reference file has loaded and [k] is in range: nothing is built, searched
    or saved. *)
Lemma unknown_kernel_fatal (a : FastMKS.Args) (w : World) (ref : mat) :
  files w (FastMKS.reference_file a) = Some ref ->
  (size_t_of_int (FastMKS.k a) <= n_cols ref)%N ->
  ~ In (GetParam "linear" (FastMKS.kernel a)) supported_kernels ->
  ~ In (GetParam "linear" (FastMKS.kernel a)) stale_kernels ->
  outcome (FastMKS.main a w) = Stop Fatal /\
  engine (trace (FastMKS.main a w)) = [] /\
  saves (trace (FastMKS.main a w)) = [].
Proof.
  intros Href Hk Hs Hg.
  assert (Hc : FastMKS.kernel_check (GetParam "linear" (FastMKS.kernel a)) = true).
  { destruct (FastMKS.kernel_check _) eqn:E; [reflexivity|].
    apply kernel_check_false in E. tauto. }
  apply N.ltb_ge in Hk.
  unfold FastMKS.main, Load. rewrite Href. cbn. rewrite Hk. cbn.
  rewrite Hc. cbn. auto.
Qed.

Lemma unknown_kernel_fatal_sample :
  outcome (FastMKS.main
             (fastmks_args "ref.csv" 2 None (Some "laplace") false false)
             disk) = Stop Fatal.
Proof.
  apply (unknown_kernel_fatal
           (fastmks_args "ref.csv" 2 None (Some "laplace") false false)
           disk (Mat 3 5)).
  - reflexivity.
  - cbn. lia.
  - cbn. intuition discriminate.
  - cbn. intuition discriminate.
Defined.

(** C2 (a name the check accepts and the dispatch ignores).  The kernel name
    ["graph"] is none of the seven supported names, yet the check on the kernel
    type lets it through: the run is not fatal, no branch of the dispatch
    matches, nothing is built or searched, and the two empty result matrices
    are saved.  The same holds for ["approxGraph"] and ["inv-mq"]. *)
Theorem stale_kernel_name_runs_nothing :
  let run_with name :=
    FastMKS.main (fastmks_args "ref.csv" 2 None (Some name) false false) disk in
  ~ In "graph" supported_kernels /\
  Forall (fun name =>
            outcome (run_with name) = Ok tt /\
            engine (trace (run_with name)) = [] /\
            saves (trace (run_with name)) =
              [Save "k.csv" Kernels; Save "i.csv" Indices])
         stale_kernels.
Proof.
  cbv zeta. split.
  - cbn. intuition discriminate.
  - repeat constructor.
Qed.

(** X26.  Only a supported kernel name reaches a search. *)
Lemma search_needs_supported_kernel (a : FastMKS.Args) (w : World) :
  searches (trace (FastMKS.main a w)) <> [] ->
  In (GetParam "linear" (FastMKS.kernel a)) supported_kernels.
Proof.
  destruct a as [rf qf k kf xf kn nv sg bs dg os bw sc]; cbn.
  unfold_fastmks. unfold supported_kernels. cbn [In].
  split_run; filters; try congruence; intros _;
    repeat match goal with
    | H : (_ =? _) = true |- _ => apply String.eqb_eq in H
    end;
    intuition auto.
Qed.

(** ** Runs that stop *)

(** X27.  No partial result: a run that does not reach the end of [main] has
    searched nothing and saved nothing. *)
Lemma stopped_run_leaves_nothing (p : Program) (w : World) (e : Exit) :
  outcome (run p w) = Stop e ->
  searches (trace (run p w)) = [] /\ saves (trace (run p w)) = [].
Proof.
  destruct p as [a|a]; cbn [run].
  - destruct a as [rf df nf k qf ls nv sm ct rt rb sd]; cbn.
    unfold_allknn.
    destruct qf as [[|c s]|]; cbn; split_run; filters;
      try discriminate; intros _; split; reflexivity.
  - destruct a as [rf qf k kf xf kn nv sg bs dg os bw sc]; cbn.
    unfold_fastmks.
    split_run; filters; try discriminate; intros _; split; reflexivity.
Qed.

(** ** Naive mode *)

Ltac at_warning :=
  match goal with
  | |- exists pre post,
         ?a :: ?b :: ?c :: LogWarn SingleIgnored :: ?rest = _ /\ _ =>
      exists [a; b; c], rest
  | |- exists pre post, ?a :: ?b :: LogWarn SingleIgnored :: ?rest = _ /\ _ =>
      exists [a; b], rest
  | |- exists pre post, ?a :: LogWarn SingleIgnored :: ?rest = _ /\ _ =>
      exists [a], rest
  end.

(** The random-basis loop on passes of which one is accepted, the query matrix
    having the rows of the reference matrix when there is a query file. *)
Lemma random_basis_loop_accepts ds qf r q :
  existsb accepted ds = true ->
  (qf <> "" -> n_rows q = n_rows r) ->
  AllkNN.random_basis_loop ds qf r q =
    (Projected RefSet :: (if negb (qf =? "") then [Projected QuerySet] else []),
     Ok (Mat (n_rows r) (n_cols r),
         if negb (qf =? "") then Mat (n_rows r) (n_cols q) else q)).
Proof.
  intros Hd Hq. induction ds as [|d ds IH]; cbn in *; [discriminate|].
  unfold accepted in Hd at 1.
  destruct (qr_ok d && det_nonneg d).
  - unfold mat_mul; cbn. rewrite N.eqb_refl. cbn.
    destruct qf as [|c s]; cbn; [reflexivity|].
    rewrite Hq by discriminate. rewrite N.eqb_refl. reflexivity.
  - apply IH, Hd.
Qed.

Ltac supported_or_not :=
  let Hin := fresh "Hin" in
  intros Hin;
  first
    [ eexists; reflexivity
    | exfalso; unfold supported_kernels in Hin; cbn [In] in Hin;
      repeat match goal with
      | H : (_ =? _) = false |- _ => apply String.eqb_neq in H
      end;
      intuition congruence ].

(** C5.  When both the naive flag and the single-tree flag are passed, every
    run that gets past its loads and checks -- the files load, [k] is at most
    the number of reference points; for allknn the leaf size is at least 1 and
    a random basis, if asked for, is found and fits; for fastmks the kernel
    name passes its check -- logs the warning that the single-tree flag is
    ignored, before anything is built or searched.  The warning is not fatal:
    the run goes on to its end, and the only calls into the search engine
    after it are those of the naive search, the search object constructed on
    the raw reference matrix with the naive flag passed, and one search with
    it, on the raw query matrix or on the reference set itself.  (In fastmks
    the search needs one of the seven supported kernel names.) *)
Theorem naive_overrides_single (p : Program) (w : World)
    (referenceData queryData : mat) :
  p_naive p = true -> p_single p = true ->
  files w (p_reference_file p) = Some referenceData ->
  (p_k p <= n_cols referenceData)%N ->
  match p with
  | Allknn a =>
      (if GetParam "" (AllkNN.query_file a) =? ""
       then queryData = empty_mat
       else files w (GetParam "" (AllkNN.query_file a)) = Some queryData) /\
      (1 <= GetParam 20 (AllkNN.leaf_size a))%Z /\
      (AllkNN.random_basis a = true ->
       existsb accepted (draws w) = true /\
       (GetParam "" (AllkNN.query_file a) <> "" ->
        n_rows queryData = n_rows referenceData))
  | Fastmks a =>
      match FastMKS.query_file a with
      | Some f => files w f = Some queryData
      | None => queryData = empty_mat
      end /\
      FastMKS.kernel_check (GetParam "linear" (FastMKS.kernel a)) = false
  end ->
  outcome (run p w) = Ok tt /\
  exists pre post,
    trace (run p w) = (pre ++ LogWarn SingleIgnored :: post)%list /\
    engine pre = [] /\
    match p with
    | Allknn a =>
        engine post =
          [Construct EuclideanDistance (OnMatrix false true);
           Search (if GetParam "" (AllkNN.query_file a) =? ""
                   then SelfQuery else QueryPoints) (p_k p) Final]
    | Fastmks a =>
        In (GetParam "linear" (FastMKS.kernel a)) supported_kernels ->
        exists K,
          engine post =
            [Construct (IPMetric K) (OnMatrix false true);
             Search (if (n_elem queryData =? 0)%N
                     then SelfQuery else QueryPoints) (p_k p) Final]
    end.
Proof.
  destruct p as [a|a]; cbn [p_naive p_single p_k p_reference_file run].
  - destruct a as [rf df nf k qf ls nv sm ct rt rb sd]; cbn.
    intros -> -> Hr Hk (Hq & Hls & Hrb).
    apply N.ltb_ge in Hk. apply Z.ltb_ge in Hls.
    unfold_allknn. rewrite Hr. cbn.
    destruct qf as [[|c s]|]; cbn in Hq, Hrb |- *;
      [subst queryData | rewrite Hq | subst queryData];
      cbn; rewrite Hk; cbn; rewrite Hls; cbn;
      (destruct rb;
       [ destruct (Hrb eq_refl) as [Hd Hrows];
         rewrite (random_basis_loop_accepts _ _ _ _ Hd Hrows) |]);
      cbn; split_run; (split; [reflexivity|]);
      at_warning; (split; [reflexivity|]); filters;
      (split; reflexivity).
  - destruct a as [rf qf k kf xf kn nv sg bs dg os bw sc]; cbn.
    intros -> -> Hr Hk (Hq & Hkc). apply N.ltb_ge in Hk.
    unfold_fastmks. rewrite Hr. cbn. rewrite Hk. cbn. rewrite Hkc. cbn.
    destruct qf as [f|]; cbn in Hq |- *; [rewrite Hq | subst queryData];
      cbn; split_run; (split; [reflexivity|]);
      at_warning; (split; [reflexivity|]); filters;
      (split; [reflexivity|]); supported_or_not.
Qed.

Lemma naive_overrides_single_witness :
  let a := Allknn (allknn_args "ref.csv" 2 (Some "query.csv")
                     true true false false) in
  let f := Fastmks (fastmks_args "ref.csv" 2 None (Some "cosine")
                      true true) in
  (outcome (run a disk) = Ok tt /\
   exists pre post,
     trace (run a disk) = (pre ++ LogWarn SingleIgnored :: post)%list /\
     engine pre = [] /\
     engine post = [Construct EuclideanDistance (OnMatrix false true);
                    Search QueryPoints 2 Final]) /\
  (outcome (run f disk) = Ok tt /\
   exists pre post,
     trace (run f disk) = (pre ++ LogWarn SingleIgnored :: post)%list /\
     engine pre = [] /\
     (In "cosine" supported_kernels ->
      exists K,
        engine post = [Construct (IPMetric K) (OnMatrix false true);
                       Search SelfQuery 2 Final])).
Proof.
  cbv zeta. split.
  - apply (naive_overrides_single
             (Allknn (allknn_args "ref.csv" 2 (Some "query.csv")
                        true true false false))
             disk (Mat 3 5) (Mat 3 4));
      try reflexivity.
    + cbn. lia.
    + cbn. split; [reflexivity | split; [lia | discriminate]].
  - apply (naive_overrides_single
             (Fastmks (fastmks_args "ref.csv" 2 None (Some "cosine")
                         true true))
             disk (Mat 3 5) empty_mat);
      try reflexivity.
    + cbn. lia.
    + cbn. split; reflexivity.
Defined.

(** C6.  With the naive flag no tree is ever built, whatever else happens.
    And every naive run that gets past its loads and checks (as for C5; in
    fastmks with one of the seven supported kernel names) completes with
    exactly two calls into the search engine: the search object is constructed
    on the raw reference matrix with the naive flag set, and it is searched
    once, on the raw query matrix when there is one (a query file for allknn,
    a loaded query matrix with elements for fastmks) and on the reference set
    itself otherwise.  Such a search evaluates all pairs of a query point and
    a reference point. *)
Theorem naive_builds_no_tree (p : Program) (w : World)
    (referenceData queryData : mat) :
  p_naive p = true ->
  builds (trace (run p w)) = [] /\
  (files w (p_reference_file p) = Some referenceData ->
   (p_k p <= n_cols referenceData)%N ->
   match p with
   | Allknn a =>
       (if GetParam "" (AllkNN.query_file a) =? ""
        then queryData = empty_mat
        else files w (GetParam "" (AllkNN.query_file a)) = Some queryData) /\
       (1 <= GetParam 20 (AllkNN.leaf_size a))%Z /\
       (AllkNN.random_basis a = true ->
        existsb accepted (draws w) = true /\
        (GetParam "" (AllkNN.query_file a) <> "" ->
         n_rows queryData = n_rows referenceData))
   | Fastmks a =>
       match FastMKS.query_file a with
       | Some f => files w f = Some queryData
       | None => queryData = empty_mat
       end /\
       In (GetParam "linear" (FastMKS.kernel a)) supported_kernels
   end ->
   let separate :=
     match p with
     | Allknn a => negb (GetParam "" (AllkNN.query_file a) =? "")
     | Fastmks _ => negb (n_elem queryData =? 0)%N
     end in
   let q := if separate then QueryPoints else SelfQuery in
   let queries :=
     if separate then n_cols queryData else n_cols referenceData in
   outcome (run p w) = Ok tt /\
   (exists m,
      engine (trace (run p w)) =
        [Construct m (OnMatrix false true); Search q (p_k p) Final] /\
      match p with
      | Allknn _ => m = EuclideanDistance
      | Fastmks _ => exists K, m = IPMetric K
      end) /\
   evaluation (OnMatrix false true) q referenceData queryData =
     AllPairs queries (n_cols referenceData)).
Proof.
  intros Hn. split.
  - destruct p as [a|a]; cbn [p_naive run] in *.
    + destruct a as [rf df nf k qf ls nv sm ct rt rb sd]; cbn in Hn.
      subst nv. unfold_allknn.
      destruct qf as [[|c s]|]; cbn; split_run; filters; reflexivity.
    + destruct a as [rf qf k kf xf kn nv sg bs dg os bw sc]; cbn in Hn.
      subst nv. unfold_fastmks.
      split_run; filters; reflexivity.
  - destruct p as [a|a]; cbn [p_naive p_k p_reference_file run] in *.
    + destruct a as [rf df nf k qf ls nv sm ct rt rb sd]; cbn in Hn |- *.
      subst nv. intros Hr Hk (Hq & Hls & Hrb).
      apply N.ltb_ge in Hk. apply Z.ltb_ge in Hls.
      unfold_allknn. rewrite Hr. cbn.
      destruct qf as [[|c s]|]; cbn in Hq, Hrb |- *;
        [subst queryData | rewrite Hq | subst queryData];
        cbn; rewrite Hk; cbn; rewrite Hls; cbn;
        (destruct rb;
         [ destruct (Hrb eq_refl) as [Hd Hrows];
           rewrite (random_basis_loop_accepts _ _ _ _ Hd Hrows) |]);
        cbn; split_run; filters;
        (split; [reflexivity|]);
        (split; [eexists; split; reflexivity | reflexivity]).
    + destruct a as [rf qf k kf xf kn nv sg bs dg os bw sc]; cbn in Hn |- *.
      subst nv. intros Hr Hk (Hq & Hkn). apply N.ltb_ge in Hk.
      unfold FastMKS.main, Load, when; cbn.
      rewrite Hr. cbn. rewrite Hk. cbn.
      unfold supported_kernels in Hkn; cbn [In] in Hkn.
      repeat (destruct Hkn as [Hkn | Hkn]); try contradiction;
        rewrite <- Hkn; cbn;
        (destruct qf as [f|]; cbn in Hq |- *;
         [rewrite Hq | subst queryData]);
        cbn;
        unfold FastMKS.dispatch, FastMKS.RunFastMKS1, FastMKS.RunFastMKS2;
        cbn; split_run; filters;
        (split; [reflexivity|]);
        (split;
         [eexists; split; [reflexivity | eexists; reflexivity]
         | reflexivity]).
Qed.

Lemma naive_builds_no_tree_witness :
  let a := Allknn (allknn_args "ref.csv" 2 (Some "query.csv")
                     true false false false) in
  let f1 := Fastmks (fastmks_args "ref.csv" 2 None (Some "gaussian")
                       true false) in
  let f2 := Fastmks (fastmks_args "ref.csv" 2 (Some "query.csv")
                       (Some "gaussian") true false) in
  (builds (trace (run a disk)) = [] /\
   outcome (run a disk) = Ok tt /\
   (exists m,
      engine (trace (run a disk)) =
        [Construct m (OnMatrix false true); Search QueryPoints 2 Final] /\
      m = EuclideanDistance) /\
   evaluation (OnMatrix false true) QueryPoints (Mat 3 5) (Mat 3 4) =
     AllPairs 4 5) /\
  (outcome (run f1 disk) = Ok tt /\
   (exists m,
      engine (trace (run f1 disk)) =
        [Construct m (OnMatrix false true); Search SelfQuery 2 Final] /\
      exists K, m = IPMetric K) /\
   evaluation (OnMatrix false true) SelfQuery (Mat 3 5) empty_mat =
     AllPairs 5 5) /\
  (outcome (run f2 disk) = Ok tt /\
   (exists m,
      engine (trace (run f2 disk)) =
        [Construct m (OnMatrix false true); Search QueryPoints 2 Final] /\
      exists K, m = IPMetric K) /\
   evaluation (OnMatrix false true) QueryPoints (Mat 3 5) (Mat 3 4) =
     AllPairs 4 5).
Proof.
  cbv zeta. split; [|split].
  - destruct (naive_builds_no_tree
                (Allknn (allknn_args "ref.csv" 2 (Some "query.csv")
                           true false false false))
                disk (Mat 3 5) (Mat 3 4) eq_refl) as [Hb Hrun].
    split; [exact Hb|].
    apply Hrun.
    + reflexivity.
    + cbn. lia.
    + cbn. split; [reflexivity | split; [lia | discriminate]].
  - destruct (naive_builds_no_tree
                (Fastmks (fastmks_args "ref.csv" 2 None (Some "gaussian")
                            true false))
                disk (Mat 3 5) empty_mat eq_refl) as [_ Hrun].
    apply Hrun.
    + reflexivity.
    + cbn. lia.
    + cbn. split; [reflexivity | auto 10].
  - destruct (naive_builds_no_tree
                (Fastmks (fastmks_args "ref.csv" 2 (Some "query.csv")
                            (Some "gaussian") true false))
                disk (Mat 3 5) (Mat 3 4) eq_refl) as [_ Hrun].
    apply Hrun.
    + reflexivity.
    + cbn. lia.
    + cbn. split; [reflexivity | auto 10].
Defined.

(** ** Mapping the indices back *)

(** C7.  On the kd-tree path of allknn (no naive flag, no cover tree, no
    R*-tree) a run that completes unmaps in one of three ways, by the search
    it ran: with a query file and dual-tree search, the query tree is built
    with its own permutation and both permutations are applied; with a query
    file and single-tree search, the reference permutation alone is applied;
    without a query file, the reference permutation is applied on both
    sides. *)
Theorem unmap_follows_search (a : AllkNN.Args) (w : World) :
  AllkNN.naive a = false ->
  AllkNN.cover_tree a = false ->
  AllkNN.r_tree a = false ->
  outcome (AllkNN.main a w) = Ok tt ->
  let k := size_t_of_int (AllkNN.k a) in
  let leafSize := size_t_of_int (GetParam 20%Z (AllkNN.leaf_size a)) in
  let queryFile := GetParam "" (AllkNN.query_file a) in
  let calls := engine (trace (AllkNN.main a w)) in
  (queryFile <> "" -> AllkNN.single_mode a = false ->
   calls = [BuildTree (KDTree oldFromNewRefs leafSize) RefSet;
            Construct EuclideanDistance (OnTree false);
            BuildTree (KDTree oldFromNewQueries leafSize) QuerySet;
            Search QueryTree k Scratch;
            Unmap oldFromNewRefs (Some oldFromNewQueries)]) /\
  (queryFile <> "" -> AllkNN.single_mode a = true ->
   calls = [BuildTree (KDTree oldFromNewRefs leafSize) RefSet;
            Construct EuclideanDistance (OnTree true);
            Search QueryPoints k Scratch;
            Unmap oldFromNewRefs None]) /\
  (queryFile = "" ->
   calls = [BuildTree (KDTree oldFromNewRefs leafSize) RefSet;
            Construct EuclideanDistance (OnTree (AllkNN.single_mode a));
            Search SelfQuery k Scratch;
            Unmap oldFromNewRefs (Some oldFromNewRefs)]).
Proof.
  destruct a as [rf df nf k qf ls nv sm ct rt rb sd]; cbn.
  intros -> -> ->. unfold_allknn.
  destruct qf as [[|c s]|]; cbn; split_run; filters;
    try discriminate; intros _;
    repeat split; intros; try reflexivity; congruence.
Qed.

Lemma unmap_follows_search_witness :
  let a := allknn_args "ref.csv" 2 (Some "query.csv") false false false false in
  outcome (AllkNN.main a disk) = Ok tt /\
  engine (trace (AllkNN.main a disk)) =
    [BuildTree (KDTree oldFromNewRefs 20) RefSet;
     Construct EuclideanDistance (OnTree false);
     BuildTree (KDTree oldFromNewQueries 20) QuerySet;
     Search QueryTree 2 Scratch;
     Unmap oldFromNewRefs (Some oldFromNewQueries)].
Proof.
  cbv zeta. split; [reflexivity|].
  apply (unmap_follows_search
           (allknn_args "ref.csv" 2 (Some "query.csv") false false false false)
           disk eq_refl eq_refl eq_refl eq_refl);
    [discriminate | reflexivity].
Defined.

Ltac finish :=
  repeat first
    [ apply finishes_here
    | apply finishes_cons; [reflexivity | reflexivity |]
    | apply finishes_app;
      [ unfold searches; apply projected_filter;
        [assumption | intros []; reflexivity]
      | unfold unmaps; apply projected_filter;
        [assumption | intros []; reflexivity]
      | ] ].

(** C9.  A run of allknn that completes ends in one of two ways.  On the
    kd-tree path the search writes the intermediate matrices, Unmap is applied
    to them with the reference permutation, and then the two results are saved.
    On every other path (naive, cover tree, R*-tree) the search writes the
    matrices that are saved right after it.  In either case nothing is
    searched or unmapped before. *)
Theorem only_kd_tree_unmaps (a : AllkNN.Args) (w : World) :
  outcome (AllkNN.main a w) = Ok tt ->
  let k := size_t_of_int (AllkNN.k a) in
  let saved := [Save (AllkNN.distances_file a) Distances;
                Save (AllkNN.neighbors_file a) Neighbors] in
  (AllkNN.naive a = false /\ AllkNN.cover_tree a = false /\
   AllkNN.r_tree a = false ->
   exists q qm,
     finishes_with (trace (AllkNN.main a w))
       ([Search q k Scratch; Unmap oldFromNewRefs qm] ++ saved)) /\
  (AllkNN.naive a = true \/ AllkNN.cover_tree a = true \/
   AllkNN.r_tree a = true ->
   exists q,
     finishes_with (trace (AllkNN.main a w)) ([Search q k Final] ++ saved)).
Proof.
  destruct a as [rf df nf k qf ls nv sm ct rt rb sd]; cbn.
  unfold_allknn.
  destruct nv, ct, rt, qf as [[|c s]|]; cbn; split_run;
    try discriminate; intros _;
    (split;
     [ intros (? & ? & ?); try discriminate; eexists; eexists; finish
     | intros [? | [? | ?]]; try discriminate; eexists; finish ]).
Qed.

Lemma only_kd_tree_unmaps_witness :
  let kd := allknn_args "ref.csv" 2 None false true false false in
  let cover := allknn_args "ref.csv" 2 None false true true false in
  outcome (AllkNN.main kd disk) = Ok tt /\
  outcome (AllkNN.main cover disk) = Ok tt /\
  (exists q qm,
     finishes_with (trace (AllkNN.main kd disk))
       [Search q 2 Scratch; Unmap oldFromNewRefs qm;
        Save "d.csv" Distances; Save "n.csv" Neighbors]) /\
  (exists q,
     finishes_with (trace (AllkNN.main cover disk))
       [Search q 2 Final; Save "d.csv" Distances; Save "n.csv" Neighbors]).
Proof.
  cbv zeta. split; [reflexivity|]. split; [reflexivity|]. split.
  - apply (only_kd_tree_unmaps
             (allknn_args "ref.csv" 2 None false true false false)
             disk eq_refl).
    repeat split.
  - apply (only_kd_tree_unmaps
             (allknn_args "ref.csv" 2 None false true true false)
             disk eq_refl).
    right; left; reflexivity.
Defined.

(** ** Self-search in fastmks *)

(** C10.  In fastmks a query file that is passed and loads does not by itself
    make the search a separate-query one: whenever a search runs, it is the
    search of the reference set against itself, with no tree on the query
    matrix, if the loaded query matrix has zero elements, and a search on the
    query matrix or on its tree otherwise. *)
Theorem self_search_decided_by_n_elem (a : FastMKS.Args) (w : World)
    (f : string) (queryData : mat) :
  FastMKS.query_file a = Some f ->
  files w f = Some queryData ->
  searches (trace (FastMKS.main a w)) <> [] ->
  let k := size_t_of_int (FastMKS.k a) in
  (n_elem queryData = 0%N ->
   searches (trace (FastMKS.main a w)) = [Search SelfQuery k Final] /\
   forall t, ~ In (BuildTree t QuerySet) (trace (FastMKS.main a w))) /\
  (n_elem queryData <> 0%N ->
   exists q, q <> SelfQuery /\
     searches (trace (FastMKS.main a w)) = [Search q k Final]).
Proof.
  destruct a as [rf qf k kf xf kn nv sg bs dg os bw sc]; cbn.
  intros -> Hf. unfold_fastmks. rewrite Hf.
  split_run; filters; try congruence; intros _;
    match goal with
    | H : (n_elem _ =? 0)%N = true |- _ => apply N.eqb_eq in H
    | H : (n_elem _ =? 0)%N = false |- _ => apply N.eqb_neq in H
    end;
    (split; intros Hq; [|]); try contradiction;
    try (split; [reflexivity | intros t; cbn; intuition discriminate]);
    eexists; (split; [|reflexivity]); discriminate.
Qed.

Lemma self_search_decided_by_n_elem_witness :
  let a := fastmks_args "ref.csv" 2 (Some "empty.csv") None false false in
  FastMKS.query_file a = Some "empty.csv" /\
  files disk "empty.csv" = Some (Mat 0 0) /\
  n_elem (Mat 0 0) = 0%N /\
  searches (trace (FastMKS.main a disk)) = [Search SelfQuery 2 Final].
Proof.
  cbv zeta. split; [reflexivity|]. split; [reflexivity|].
  split; [reflexivity|].
  apply (self_search_decided_by_n_elem
           (fastmks_args "ref.csv" 2 (Some "empty.csv") None false false)
           disk "empty.csv" (Mat 0 0) eq_refl eq_refl);
    [vm_compute; discriminate | reflexivity].
Defined.

(** ** Dimensions *)

(** C3, as stated, fails: a 3-dimensional reference set with a 2-dimensional
    query set is not rejected by either driver; both search and save. *)
Lemma dimension_mismatch_is_searched :
  let a := Allknn (allknn_args "ref.csv" 2 (Some "query2d.csv")
                     false false false false) in
  let f := Fastmks (fastmks_args "ref.csv" 2 (Some "query2d.csv") None
                      false false) in
  files disk "ref.csv" = Some (Mat 3 5) /\
  files disk "query2d.csv" = Some (Mat 2 4) /\
  n_rows (Mat 3 5) <> n_rows (Mat 2 4) /\
  outcome (run a disk) = Ok tt /\
  searches (trace (run a disk)) = [Search QueryTree 2 Scratch] /\
  saves (trace (run a disk)) = [Save "d.csv" Distances; Save "n.csv" Neighbors] /\
  outcome (run f disk) = Ok tt /\
  searches (trace (run f disk)) = [Search QueryTree 2 Final] /\
  saves (trace (run f disk)) = [Save "k.csv" Kernels; Save "i.csv" Indices].
Proof.
  cbv zeta. repeat split; try reflexivity. cbn. discriminate.
Qed.

(** C3, amended.  Neither driver compares the number of rows of the query
    matrix with that of the reference matrix.  When they differ, a run whose
    [k] is not above the number of reference points -- and, for allknn, whose
    leaf size is at least 1 and which does not ask for a random basis; for
    fastmks, whose kernel name is one of the seven supported ones -- completes:
    it runs one search with that [k] and is not fatal. *)
Theorem row_counts_are_not_compared (p : Program) (w : World)
    (f : string) (referenceData queryData : mat) :
  files w (p_reference_file p) = Some referenceData ->
  p_query_file p = Some f -> f <> "" ->
  files w f = Some queryData ->
  n_rows referenceData <> n_rows queryData ->
  (p_k p <= n_cols referenceData)%N ->
  match p with
  | Allknn a =>
      (1 <= GetParam 20 (AllkNN.leaf_size a))%Z /\
      AllkNN.random_basis a = false
  | Fastmks a => In (GetParam "linear" (FastMKS.kernel a)) supported_kernels
  end ->
  outcome (run p w) = Ok tt /\
  exists q out, searches (trace (run p w)) = [Search q (p_k p) out].
Proof.
  destruct p as [a|a]; cbn [p_reference_file p_query_file p_k run].
  - destruct a as [rf df nf k qf ls nv sm ct rt rb sd]; cbn.
    intros Hr -> Hne Hq _ Hk [Hls ->].
    apply N.ltb_ge in Hk. apply Z.ltb_ge in Hls.
    unfold_allknn. rewrite Hr. cbn.
    destruct f as [|c s]; [congruence|]. cbn. rewrite Hq. cbn.
    rewrite Hk. cbn. rewrite Hls. cbn.
    split_run; filters; (split; [reflexivity|]);
      eexists; eexists; reflexivity.
  - destruct a as [rf qf k kf xf kn nv sg bs dg os bw sc]; cbn.
    intros Hr -> Hne Hq _ Hk Hkn.
    apply N.ltb_ge in Hk.
    unfold FastMKS.main, Load, when; cbn.
    rewrite Hr. cbn. rewrite Hk. cbn. rewrite Hq.
    unfold supported_kernels in Hkn; cbn [In] in Hkn.
    repeat (destruct Hkn as [Hkn | Hkn]); try contradiction;
      rewrite <- Hkn; cbn;
      unfold FastMKS.dispatch, FastMKS.RunFastMKS1, FastMKS.RunFastMKS2; cbn;
      split_run; filters; (split; [reflexivity|]);
      eexists; eexists; reflexivity.
Qed.

Lemma row_counts_are_not_compared_witness :
  let p := Allknn (allknn_args "ref.csv" 2 (Some "query2d.csv")
                     false true false true) in
  n_rows (Mat 3 5) <> n_rows (Mat 2 4) /\
  outcome (run p disk) = Ok tt /\
  exists q out, searches (trace (run p disk)) = [Search q (p_k p) out].
Proof.
  cbv zeta. split; [cbn; discriminate|].
  apply (row_counts_are_not_compared
           (Allknn (allknn_args "ref.csv" 2 (Some "query2d.csv")
                      false true false true))
           disk "query2d.csv" (Mat 3 5) (Mat 2 4)).
  - reflexivity.
  - reflexivity.
  - discriminate.
  - reflexivity.
  - cbn. discriminate.
  - cbn. lia.
  - cbn. split; [lia | reflexivity].
Defined.

(** ** The base of the cover trees *)

(** C4, as stated, fails: allknn with its cover-tree flag and nothing else
    builds its cover tree with base 1.3, which is not 2.0. *)
Lemma allknn_cover_tree_base_is_not_2 :
  let a := allknn_args "ref.csv" 2 None false false true false in
  AllkNN.cover_tree a = true /\
  builds (trace (AllkNN.main a disk)) =
    [BuildTree (CoverTree EuclideanDistance 1.3%Q) RefSet] /\
  ~ (1.3 == 2.0)%Q.
Proof.
  cbv zeta. split; [reflexivity|]. split; [reflexivity|].
  intros H. vm_compute in H. discriminate.
Qed.

(** C4, amended.  In fastmks the base of the cover trees is a parameter of
    the command line with default 2.0: every cover tree a run of fastmks
    builds has the base passed with [--base], and base 2.0 when none is
    passed.  allknn has no such parameter: every cover tree it builds has
    base 1.3. *)
Theorem cover_tree_base (p : Program) (w : World)
    (m : Metric) (b : double) (on : Dataset) :
  In (BuildTree (CoverTree m b) on) (trace (run p w)) ->
  match p with
  | Allknn _ => b = 1.3%Q
  | Fastmks a =>
      match FastMKS.base a with
      | Some passed => b = passed
      | None => b = 2.0%Q
      end
  end.
Proof.
  destruct p as [a|a]; cbn [run].
  - destruct a as [rf df nf k qf ls nv sm ct rt rb sd]; cbn.
    unfold_allknn.
    destruct nv, ct, rt, qf as [[|c s]|]; cbn; split_run;
      rewrite ?in_app_iff; cbn;
      intuition (try discriminate; try congruence);
      match goal with
      | E : forall e, In e ?t -> _, H : In _ ?t |- _ =>
          destruct (E _ H); discriminate
      end.
  - destruct a as [rf qf k kf xf kn nv sg bs dg os bw sc]; cbn.
    unfold_fastmks.
    destruct bs as [passed|]; cbn; split_run;
      intuition (try discriminate; try congruence).
Qed.

Lemma cover_tree_base_witness :
  let a := fastmks_args "ref.csv" 2 None None false false in
  FastMKS.base a = None /\
  In (BuildTree (CoverTree (IPMetric LinearKernel) 2.0%Q) RefSet)
     (trace (FastMKS.main a disk)) /\
  2.0%Q = 2.0%Q.
Proof.
  cbv zeta. split; [reflexivity|].
  assert (H : In (BuildTree (CoverTree (IPMetric LinearKernel) 2.0%Q) RefSet)
                (trace (FastMKS.main
                          (fastmks_args "ref.csv" 2 None None false false)
                          disk))).
  { cbn. auto. }
  split; [exact H|].
  exact (cover_tree_base
           (Fastmks (fastmks_args "ref.csv" 2 None None false false))
           disk (IPMetric LinearKernel) 2.0%Q RefSet H).
Defined.

(** * Further properties of the drivers *)

(** ** The random-basis loop *)

(** X22.  When the loop hands the two matrices on, neither has changed its
    shape, and a query matrix that was multiplied has as many rows as the
    reference matrix. *)
Theorem random_basis_keeps_shapes ds qf r q r' q' :
  outcome (AllkNN.random_basis_loop ds qf r q) = Ok (r', q') ->
  (n_rows r' = n_rows r /\ n_cols r' = n_cols r) /\
  (n_rows q' = n_rows q /\ n_cols q' = n_cols q) /\
  (qf <> "" -> n_rows q = n_rows r).
Proof.
  induction ds as [|d ds IH]; cbn; [discriminate|].
  destruct (qr_ok d && det_nonneg d); [|exact IH].
  unfold mat_mul; cbn. rewrite N.eqb_refl. cbn.
  destruct qf as [|c s]; cbn.
  - intros H; injection H as <- <-. cbn. intuition congruence.
  - destruct (N.eqb_spec (n_rows r) (n_rows q)) as [Heq|Hne]; cbn;
      [|discriminate].
    intros H; injection H as <- <-. cbn. auto.
Qed.

Lemma random_basis_keeps_shapes_witness :
  let ds := [{| qr_ok := false; det_nonneg := true |};
             {| qr_ok := true; det_nonneg := true |}] in
  outcome (AllkNN.random_basis_loop ds "query.csv" (Mat 3 5) (Mat 3 4)) =
    Ok (Mat 3 5, Mat 3 4) /\
  n_rows (Mat 3 4) = n_rows (Mat 3 5).
Proof.
  cbv zeta. split; [reflexivity|].
  apply (random_basis_keeps_shapes
           [{| qr_ok := false; det_nonneg := true |};
            {| qr_ok := true; det_nonneg := true |}]
           "query.csv" (Mat 3 5) (Mat 3 4) (Mat 3 5) (Mat 3 4) eq_refl).
  discriminate.
Defined.

(** X23.  The passes before the first accepted one leave no event, and the
    passes after it are never looked at: the loop behaves as on the accepted
    pass alone. *)
Theorem first_accepted_pass_decides rejected d rest qf r q :
  forallb (fun x => negb (accepted x)) rejected = true ->
  accepted d = true ->
  AllkNN.random_basis_loop (rejected ++ d :: rest) qf r q =
  AllkNN.random_basis_loop [d] qf r q.
Proof.
  intros Hrej Hd. induction rejected as [|x xs IH]; cbn in *.
  - unfold accepted in Hd. rewrite Hd. reflexivity.
  - apply andb_true_iff in Hrej as [Hx Hxs].
    unfold accepted in Hx. apply negb_true_iff in Hx. rewrite Hx.
    apply IH, Hxs.
Qed.

Lemma first_accepted_pass_decides_witness :
  let no := {| qr_ok := true; det_nonneg := false |} in
  let yes := {| qr_ok := true; det_nonneg := true |} in
  AllkNN.random_basis_loop ([no; no] ++ yes :: [no; yes]) "" (Mat 3 5) empty_mat =
  AllkNN.random_basis_loop [yes] "" (Mat 3 5) empty_mat.
Proof.
  cbv zeta.
  apply (first_accepted_pass_decides
           [{| qr_ok := true; det_nonneg := false |};
            {| qr_ok := true; det_nonneg := false |}]
           {| qr_ok := true; det_nonneg := true |}
           [{| qr_ok := true; det_nonneg := false |};
            {| qr_ok := true; det_nonneg := true |}]
           "" (Mat 3 5) empty_mat); reflexivity.
Defined.

(** What an accepted pass logs. *)
Lemma random_basis_loop_ok ds qf r q x :
  outcome (AllkNN.random_basis_loop ds qf r q) = Ok x ->
  trace (AllkNN.random_basis_loop ds qf r q) =
    Projected RefSet :: (if negb (qf =? "") then [Projected QuerySet] else []).
Proof.
  induction ds as [|d ds IH]; cbn; [discriminate|].
  destruct (qr_ok d && det_nonneg d); [|exact IH].
  unfold mat_mul; cbn. rewrite N.eqb_refl. cbn.
  destruct (negb (qf =? "")); cbn; [|reflexivity].
  destruct (n_rows r =? n_rows q)%N; cbn; [reflexivity | discriminate].
Qed.

(** The loop never ends on [Log::Fatal], and logs nothing when it does not
    hand the matrices on after the reference matrix. *)
Lemma random_basis_loop_exit ds qf r q e :
  outcome (AllkNN.random_basis_loop ds qf r q) = Stop e -> e <> Fatal.
Proof.
  induction ds as [|d ds IH]; cbn; [intros [= <-]; discriminate|].
  destruct (qr_ok d && det_nonneg d); [|exact IH].
  unfold mat_mul; cbn. rewrite N.eqb_refl. cbn.
  destruct (negb (qf =? "")); cbn; [|discriminate].
  destruct (n_rows r =? n_rows q)%N; cbn;
    [discriminate | intros [= <-]; discriminate].
Qed.

(** ** Case analysis, with what the loop logs *)

Arguments fatal_logs : simpl never.
Arguments projections : simpl never.
Arguments seeds : simpl never.
Arguments query_loads : simpl never.

Lemma ends_here (f : Event -> bool) (s : list Event) : ends_with f s s.
Proof. exists []. split; reflexivity. Qed.

Lemma ends_cons (f : Event -> bool) (e : Event) (t s : list Event) :
  f e = false -> ends_with f t s -> ends_with f (e :: t) s.
Proof.
  intros He (pre & -> & H). exists (e :: pre). cbn. rewrite He. auto.
Qed.

Lemma ends_app (f : Event -> bool) (l t s : list Event) :
  filter f l = [] -> ends_with f t s -> ends_with f (l ++ t) s.
Proof.
  intros Hl (pre & -> & H). exists (l ++ pre)%list.
  rewrite filter_app, Hl, H, app_assoc. auto.
Qed.

Ltac split_loop_full :=
  match goal with
  | |- context [AllkNN.random_basis_loop ?a ?b ?c ?d] =>
      let E := fresh "E" in
      let Hok := fresh "Hok" in
      let Hex := fresh "Hex" in
      let t := fresh "t" in
      pose proof (random_basis_loop_events a b c d) as E;
      pose proof (random_basis_loop_ok a b c d) as Hok;
      pose proof (random_basis_loop_exit a b c d) as Hex;
      destruct (AllkNN.random_basis_loop a b c d) as [t [[? ?]|?]];
      cbn in E, Hok, Hex;
      [ specialize (Hok _ eq_refl); clear Hex E; subst t
      | clear Hok; specialize (Hex _ eq_refl) ]
  end.

Ltac split_run_full :=
  repeat first
    [ match goal with
      | |- context [files ?w ?f] => destruct (files w f) as [?|]
      | |- context [(?x <? ?y)%N] => destruct (x <? y)%N eqn:?
      | |- context [(?x <? ?y)%Z] => destruct (x <? y)%Z eqn:?
      | |- context [(?x =? ?y)%Z] => destruct (x =? y)%Z eqn:?
      | |- context [if ?b then _ else _] => is_var b; destruct b
      | |- context [if ?b then _ else _] => destruct b eqn:?
      end; cbn
    | split_loop_full; cbn ].

Ltac more_filters :=
  unfold fatal_logs, projections, seeds, query_loads; filters.

Ltac to_end :=
  repeat first
    [ apply ends_here
    | apply ends_cons; [reflexivity |]
    | apply ends_app;
      [ apply projected_filter; [assumption | intros []; reflexivity] |] ].

(** ** The checks of allknn *)

(** X1.  A leaf size below 1 is fatal in allknn on every path, also on the
    naive and the cover-tree paths, which never use the leaf size: when the
    files load and [k] is in range, the run stops on the message about the
    leaf size before anything is built, searched or saved. *)
Theorem leaf_size_below_one_is_fatal (a : AllkNN.Args) (w : World)
    (referenceData : mat) :
  files w (AllkNN.reference_file a) = Some referenceData ->
  (GetParam "" (AllkNN.query_file a) = "" \/
   exists queryData,
     files w (GetParam "" (AllkNN.query_file a)) = Some queryData) ->
  (size_t_of_int (AllkNN.k a) <= n_cols referenceData)%N ->
  (GetParam 20 (AllkNN.leaf_size a) < 1)%Z ->
  outcome (AllkNN.main a w) = Stop Fatal /\
  fatal_logs (trace (AllkNN.main a w)) =
    [LogFatal (InvalidLeafSize (GetParam 20%Z (AllkNN.leaf_size a)))] /\
  engine (trace (AllkNN.main a w)) = [] /\
  saves (trace (AllkNN.main a w)) = [].
Proof.
  intros Hr Hq Hk Hls.
  apply N.ltb_ge in Hk. apply Z.ltb_lt in Hls.
  unfold AllkNN.main, Load. rewrite Hr.
  destruct Hq as [-> | [queryData Hq]].
  - cbn. rewrite Hk. cbn. rewrite Hls. cbn. auto.
  - destruct (negb (GetParam "" (AllkNN.query_file a) =? "")).
    + rewrite Hq. cbn. rewrite Hk. cbn. rewrite Hls. cbn. auto.
    + cbn. rewrite Hk. cbn. rewrite Hls. cbn. auto.
Qed.

Lemma leaf_size_below_one_is_fatal_witness :
  let a := with_leaf_size
             (allknn_args "ref.csv" 2 None true false false false)
             (Some 0%Z) in
  AllkNN.naive a = true /\
  outcome (AllkNN.main a disk) = Stop Fatal /\
  fatal_logs (trace (AllkNN.main a disk)) = [LogFatal (InvalidLeafSize 0)].
Proof.
  cbv zeta. split; [reflexivity|].
  destruct (leaf_size_below_one_is_fatal
              (with_leaf_size
                 (allknn_args "ref.csv" 2 None true false false false)
                 (Some 0%Z))
              disk (Mat 3 5)) as (H1 & H2 & _).
  - reflexivity.
  - left. reflexivity.
  - cbn. lia.
  - cbn. lia.
  - split; [exact H1 | exact H2].
Defined.

(** ** What a search is run with *)

Ltac in_trace :=
  let H := fresh "H" in
  intros H; rewrite ?in_app_iff in H; cbn [In] in H;
  repeat destruct H as [H|H];
  try discriminate H; try contradiction;
  try match goal with
      | E : forall e, In e ?t -> _, H : In _ ?t |- _ =>
          destruct (E _ H); discriminate
      end.

(** X3.  Every search either driver runs is run with the [k] of the command
    line, and that [k] is at most the number of points of the reference matrix
    that was loaded. *)
Theorem search_k_is_within_reference (p : Program) (w : World)
    (referenceData : mat) (q : QuerySide) (k : N) (out : Buffers) :
  files w (p_reference_file p) = Some referenceData ->
  In (Search q k out) (trace (run p w)) ->
  k = p_k p /\ (k <= n_cols referenceData)%N.
Proof.
  destruct p as [a|a]; cbn [p_reference_file p_k run].
  - destruct a as [rf df nf k0 qf ls nv sm ct rt rb sd]; cbn.
    intros Hr. unfold_allknn. rewrite Hr. cbn.
    destruct qf as [[|c s]|]; cbn; split_run_full; in_trace;
      match goal with
      | H : Search _ _ _ = Search _ _ _ |- _ => injection H as _ <- _
      end;
      (split; [reflexivity | apply N.ltb_ge; assumption]).
  - destruct a as [rf qf k0 kf xf kn nv sg bs dg os bw sc]; cbn.
    intros Hr. unfold_fastmks. rewrite Hr. cbn.
    split_run_full; in_trace;
      match goal with
      | H : Search _ _ _ = Search _ _ _ |- _ => injection H as _ <- _
      end;
      (split; [reflexivity | apply N.ltb_ge; assumption]).
Qed.

Lemma search_k_is_within_reference_witness :
  let p := Allknn (allknn_args "ref.csv" 5 None false false false true) in
  In (Search SelfQuery 5 Final) (trace (run p disk)) /\
  (5%N = p_k p /\ (5 <= n_cols (Mat 3 5))%N).
Proof.
  cbv zeta.
  assert (H : In (Search SelfQuery 5 Final)
                (trace (run (Allknn (allknn_args "ref.csv" 5 None
                                       false false false true)) disk))).
  { cbn. auto 10. }
  split; [exact H|].
  exact (search_k_is_within_reference
           (Allknn (allknn_args "ref.csv" 5 None false false false true))
           disk (Mat 3 5) SelfQuery 5%N Final eq_refl H).
Defined.

(** X4.  A kd-tree or an R*-tree is never built with leaf size 0: every such
    tree allknn builds has the leaf size of the command line (20 when none is
    passed), which is then at least 1. *)
Theorem built_trees_have_the_leaf_size (a : AllkNN.Args) (w : World)
    (t : Tree) (on : Dataset) :
  (GetParam 20 (AllkNN.leaf_size a) < 2 ^ 31)%Z ->
  In (BuildTree t on) (trace (AllkNN.main a w)) ->
  match t with
  | KDTree _ l | RStarTree l =>
      Z.of_N l = GetParam 20%Z (AllkNN.leaf_size a) /\ (1 <= l)%N
  | CoverTree _ _ => True
  end.
Proof.
  assert (Hconv : forall z, (1 <= z < 2 ^ 31)%Z ->
            Z.of_N (size_t_of_int z) = z /\ (1 <= size_t_of_int z)%N).
  { intros z Hz. unfold size_t_of_int. rewrite Z.mod_small by lia.
    rewrite Z2N.id by lia. split; [reflexivity|].
    apply N2Z.inj_le. rewrite Z2N.id by lia. lia. }
  destruct a as [rf df nf k0 qf ls nv sm ct rt rb sd]; cbn.
  intros Hls. unfold_allknn.
  destruct nv, ct, rt, qf as [[|c s]|]; cbn; split_run_full; in_trace;
    match goal with
    | H : BuildTree _ _ = BuildTree _ _ |- _ => injection H as <- _
    end;
    try exact I;
    apply Hconv; (split; [apply Z.ltb_ge; assumption | assumption]).
Qed.

Lemma built_trees_have_the_leaf_size_witness :
  let a := with_leaf_size
             (allknn_args "ref.csv" 2 None false false false true)
             (Some 7%Z) in
  In (BuildTree (RStarTree 7) RefSet) (trace (AllkNN.main a disk)) /\
  (Z.of_N 7%N = 7%Z /\ (1 <= 7)%N).
Proof.
  cbv zeta.
  assert (H : In (BuildTree (RStarTree 7) RefSet)
                (trace (AllkNN.main
                          (with_leaf_size
                             (allknn_args "ref.csv" 2 None
                                false false false true)
                             (Some 7%Z)) disk))).
  { cbn. auto 10. }
  split; [exact H|].
  apply (built_trees_have_the_leaf_size
           (with_leaf_size
              (allknn_args "ref.csv" 2 None false false false true)
              (Some 7%Z))
           disk (RStarTree 7) RefSet); [cbn; lia | exact H].
Defined.

(** X5.  The flags of allknn select the tree: a tree is only built without
    the naive flag, and it is a cover tree with the cover-tree flag (whatever
    the R*-tree flag), an R*-tree with the R*-tree flag alone, and a kd-tree
    with neither. *)
Theorem flags_select_the_tree (a : AllkNN.Args) (w : World)
    (t : Tree) (on : Dataset) :
  In (BuildTree t on) (trace (AllkNN.main a w)) ->
  AllkNN.naive a = false /\
  match t with
  | CoverTree m _ => AllkNN.cover_tree a = true /\ m = EuclideanDistance
  | RStarTree _ => AllkNN.cover_tree a = false /\ AllkNN.r_tree a = true
  | KDTree _ _ => AllkNN.cover_tree a = false /\ AllkNN.r_tree a = false
  end.
Proof.
  destruct a as [rf df nf k0 qf ls nv sm ct rt rb sd]; cbn.
  unfold_allknn.
  destruct nv, ct, rt, qf as [[|c s]|]; cbn; split_run_full; in_trace;
    match goal with
    | H : BuildTree _ _ = BuildTree _ _ |- _ => injection H as <- _
    end;
    auto.
Qed.

Lemma flags_select_the_tree_witness :
  let a := allknn_args "ref.csv" 2 None false false true true in
  In (BuildTree (CoverTree EuclideanDistance 1.3%Q) RefSet)
     (trace (AllkNN.main a disk)) /\
  AllkNN.naive a = false /\ AllkNN.cover_tree a = true.
Proof.
  cbv zeta.
  assert (H : In (BuildTree (CoverTree EuclideanDistance 1.3%Q) RefSet)
                (trace (AllkNN.main
                          (allknn_args "ref.csv" 2 None false false true true)
                          disk))).
  { cbn. auto 10. }
  split; [exact H|].
  destruct (flags_select_the_tree
              (allknn_args "ref.csv" 2 None false false true true)
              disk _ _ H) as [Hn [Hc _]].
  split; assumption.
Defined.

(** X6.  When both the cover-tree flag and the R*-tree flag are passed and a
    search runs, the warning that the cover tree overrides the R*-tree has
    been logged, also in naive mode, and no R*-tree is built. *)
Theorem cover_tree_overrides_r_tree (a : AllkNN.Args) (w : World) :
  AllkNN.cover_tree a = true ->
  AllkNN.r_tree a = true ->
  searches (trace (AllkNN.main a w)) <> [] ->
  In (LogWarn CoverOverridesR) (trace (AllkNN.main a w)) /\
  forall l on, ~ In (BuildTree (RStarTree l) on) (trace (AllkNN.main a w)).
Proof.
  destruct a as [rf df nf k0 qf ls nv sm ct rt rb sd]; cbn.
  intros -> ->. unfold_allknn.
  destruct nv, sm, qf as [[|c s]|]; cbn; split_run_full; filters;
    try congruence; intros _;
    (split; [cbn; auto 10 | intros l on; in_trace]).
Qed.

Lemma cover_tree_overrides_r_tree_witness :
  let a := allknn_args "ref.csv" 2 None true false true true in
  searches (trace (AllkNN.main a disk)) <> [] /\
  In (LogWarn CoverOverridesR) (trace (AllkNN.main a disk)).
Proof.
  cbv zeta. split; [vm_compute; discriminate|].
  apply (cover_tree_overrides_r_tree
           (allknn_args "ref.csv" 2 None true false true true) disk
           eq_refl eq_refl).
  vm_compute; discriminate.
Defined.

(** ** Dual-tree search *)

Ltac both_trees :=
  match goal with
  | |- exists tr tq m,
         BuildTree ?a _ :: Construct ?c _ :: BuildTree ?b _ :: _ = _ /\ _ =>
      exists a, b, c
  end.

(** X7.  A search on a query tree only happens without the naive and the
    single-tree flags, and then the calls into the engine are these, in this
    order: the reference tree, the search object on it in dual-tree mode, the
    query tree -- of the same kind and with the same parameters as the
    reference tree -- and the search.  With kd-trees, and only with them, the
    search writes the intermediate matrices and the unmapping with both
    permutations follows; with any other tree the search writes the matrices
    that are saved and nothing follows. *)
Theorem dual_tree_search_builds_both_trees (p : Program) (w : World)
    (k : N) (out : Buffers) :
  In (Search QueryTree k out) (trace (run p w)) ->
  p_naive p = false /\ p_single p = false /\
  exists tr tq m,
    engine (trace (run p w)) =
      ([BuildTree tr RefSet; Construct m (OnTree false);
        BuildTree tq QuerySet; Search QueryTree k out] ++
       match tr with
       | KDTree _ _ => [Unmap oldFromNewRefs (Some oldFromNewQueries)]
       | _ => []
       end)%list /\
    same_variant tr tq /\
    out = match tr with KDTree _ _ => Scratch | _ => Final end.
Proof.
  destruct p as [a|a]; cbn [p_naive p_single run].
  - destruct a as [rf df nf k0 qf ls nv sm ct rt rb sd]; cbn.
    unfold_allknn.
    destruct nv, sm, ct, rt, qf as [[|c s]|]; cbn; split_run_full; in_trace;
      match goal with
      | H : Search _ _ _ = Search _ _ _ |- _ => injection H as <- <-
      end;
      (split; [reflexivity|]); (split; [reflexivity|]);
      filters; both_trees; (split; [reflexivity|]);
      cbn; auto.
  - destruct a as [rf qf k0 kf xf kn nv sg bs dg os bw sc]; cbn.
    unfold_fastmks.
    destruct nv, sg; split_run_full; in_trace;
      match goal with
      | H : Search _ _ _ = Search _ _ _ |- _ => injection H as <- <-
      end;
      (split; [reflexivity|]); (split; [reflexivity|]);
      filters; both_trees; (split; [reflexivity|]);
      cbn; auto.
Qed.

Lemma dual_tree_search_builds_both_trees_witness :
  let p := Allknn (allknn_args "ref.csv" 2 (Some "query.csv")
                     false false false false) in
  In (Search QueryTree 2 Scratch) (trace (run p disk)) /\
  exists tr tq m,
    engine (trace (run p disk)) =
      ([BuildTree tr RefSet; Construct m (OnTree false);
        BuildTree tq QuerySet; Search QueryTree 2 Scratch] ++
       match tr with
       | KDTree _ _ => [Unmap oldFromNewRefs (Some oldFromNewQueries)]
       | _ => []
       end)%list /\
    same_variant tr tq /\
    Scratch = match tr with KDTree _ _ => Scratch | _ => Final end.
Proof.
  cbv zeta.
  assert (H : In (Search QueryTree 2 Scratch)
                (trace (run (Allknn (allknn_args "ref.csv" 2
                                       (Some "query.csv")
                                       false false false false)) disk))).
  { cbn. auto 10. }
  split; [exact H|].
  destruct (dual_tree_search_builds_both_trees
              (Allknn (allknn_args "ref.csv" 2 (Some "query.csv")
                         false false false false)) disk 2%N Scratch H)
    as (_ & _ & Hcalls).
  exact Hcalls.
Defined.

(** X8.  A tree on the query matrix is only built for a dual-tree search, and
    that search then runs: with the naive flag or the single-tree flag no
    query tree is ever built. *)
Theorem query_tree_is_always_searched (p : Program) (w : World)
    (t : Tree) :
  In (BuildTree t QuerySet) (trace (run p w)) ->
  p_naive p = false /\ p_single p = false /\
  exists out, In (Search QueryTree (p_k p) out) (trace (run p w)).
Proof.
  destruct p as [a|a]; cbn [p_naive p_single p_k run].
  - destruct a as [rf df nf k0 qf ls nv sm ct rt rb sd]; cbn.
    unfold_allknn.
    destruct nv, sm, ct, rt, qf as [[|c s]|]; cbn; split_run_full; in_trace;
      (split; [reflexivity|]); (split; [reflexivity|]);
      eexists; cbn; auto 12.
  - destruct a as [rf qf k0 kf xf kn nv sg bs dg os bw sc]; cbn.
    unfold_fastmks.
    destruct nv, sg; split_run_full; in_trace;
      (split; [reflexivity|]); (split; [reflexivity|]);
      eexists; cbn; auto 12.
Qed.

Lemma query_tree_is_always_searched_witness :
  let p := Fastmks (fastmks_args "ref.csv" 2 (Some "query.csv") None
                      false false) in
  In (BuildTree (CoverTree (IPMetric LinearKernel) 2.0%Q) QuerySet)
     (trace (run p disk)) /\
  exists out, In (Search QueryTree (p_k p) out) (trace (run p disk)).
Proof.
  cbv zeta.
  assert (H : In (BuildTree (CoverTree (IPMetric LinearKernel) 2.0%Q)
                    QuerySet)
                (trace (run (Fastmks (fastmks_args "ref.csv" 2
                                        (Some "query.csv") None
                                        false false)) disk))).
  { cbn. auto 10. }
  split; [exact H|].
  destruct (query_tree_is_always_searched
              (Fastmks (fastmks_args "ref.csv" 2 (Some "query.csv") None
                          false false)) disk _ H) as (_ & _ & Hs).
  exact Hs.
Defined.

(** ** An empty query file name *)

(** X9.  The paths of allknn do not agree on what a query file is.  When
    [--query_file] is passed with the empty name, no query matrix is loaded;
    the kd-tree and R*-tree paths then search the reference set against
    itself, while the cover-tree path, which asks whether the parameter was
    passed, searches the query matrix that was never loaded. *)
Theorem empty_query_file_name (a : AllkNN.Args) (w : World) :
  AllkNN.query_file a = Some "" ->
  AllkNN.naive a = false ->
  outcome (AllkNN.main a w) = Ok tt ->
  let k := size_t_of_int (AllkNN.k a) in
  query_loads (trace (AllkNN.main a w)) = [] /\
  (AllkNN.cover_tree a = false ->
   exists out,
     searches (trace (AllkNN.main a w)) = [Search SelfQuery k out]) /\
  (AllkNN.cover_tree a = true ->
   searches (trace (AllkNN.main a w)) =
     [Search (if AllkNN.single_mode a then QueryPoints else QueryTree)
        k Final]).
Proof.
  destruct a as [rf df nf k0 qf ls nv sm ct rt rb sd]; cbn.
  intros -> ->. unfold_allknn.
  destruct sm, ct, rt; cbn; split_run_full; try discriminate; intros _;
    (split; [more_filters; reflexivity|]);
    (split; intros; try discriminate; try eexists; filters; reflexivity).
Qed.

Lemma empty_query_file_name_witness :
  let a := allknn_args "ref.csv" 2 (Some "") false false true false in
  outcome (AllkNN.main a disk) = Ok tt /\
  query_loads (trace (AllkNN.main a disk)) = [] /\
  searches (trace (AllkNN.main a disk)) = [Search QueryTree 2 Final].
Proof.
  cbv zeta. split; [reflexivity|].
  destruct (empty_query_file_name
              (allknn_args "ref.csv" 2 (Some "") false false true false)
              disk eq_refl eq_refl eq_refl) as (H1 & _ & H3).
  split; [exact H1 | exact (H3 eq_refl)].
Defined.

(** ** Saving *)

(** X10.  A run that completes saves last, after everything else: allknn the
    distances and then the neighbors, always both; fastmks the kernels and
    then the indices, each only when its file name was passed, so that
    without them the search is run and nothing is saved. *)
Theorem results_are_saved_last (p : Program) (w : World) :
  outcome (run p w) = Ok tt ->
  ends_with is_save (trace (run p w))
    match p with
    | Allknn a =>
        [Save (AllkNN.distances_file a) Distances;
         Save (AllkNN.neighbors_file a) Neighbors]
    | Fastmks a =>
        (match FastMKS.kernels_file a with
         | Some f => [Save f Kernels]
         | None => []
         end ++
         match FastMKS.indices_file a with
         | Some f => [Save f Indices]
         | None => []
         end)%list
    end.
Proof.
  destruct p as [a|a]; cbn [run].
  - destruct a as [rf df nf k0 qf ls nv sm ct rt rb sd]; cbn.
    unfold_allknn.
    destruct qf as [[|c s]|]; cbn; split_run_full; try discriminate;
      intros _; to_end.
  - destruct a as [rf qf k0 kf xf kn nv sg bs dg os bw sc]; cbn.
    unfold_fastmks.
    destruct kf, xf; cbn; split_run_full; try discriminate;
      intros _; to_end.
Qed.

Lemma results_are_saved_last_witness :
  let p := Fastmks (with_outputs
                      (fastmks_args "ref.csv" 2 None None false false)
                      None None) in
  outcome (run p disk) = Ok tt /\
  searches (trace (run p disk)) = [Search SelfQuery 2 Final] /\
  ends_with is_save (trace (run p disk)) [].
Proof.
  cbv zeta. split; [reflexivity|]. split; [reflexivity|].
  apply (results_are_saved_last
           (Fastmks (with_outputs
                       (fastmks_args "ref.csv" 2 None None false false)
                       None None)) disk eq_refl).
Defined.

(** ** The random basis in a run *)

(** X11.  A run of allknn that completes has projected the reference matrix
    exactly when the random basis was asked for, also in naive mode, and then
    the query matrix exactly when there is a query file; every projection
    comes before the first call into the search engine. *)
Theorem projection_precedes_the_engine (a : AllkNN.Args) (w : World) :
  outcome (AllkNN.main a w) = Ok tt ->
  projections (trace (AllkNN.main a w)) =
    (if AllkNN.random_basis a
     then Projected RefSet ::
          (if negb (GetParam "" (AllkNN.query_file a) =? "")
           then [Projected QuerySet] else [])
     else []) /\
  exists post,
    ends_with is_engine_call (trace (AllkNN.main a w)) post /\
    projections post = [].
Proof.
  destruct a as [rf df nf k0 qf ls nv sm ct rt rb sd]; cbn.
  unfold_allknn.
  destruct rb, qf as [[|c s]|]; cbn; split_run_full; try discriminate;
    intros _; (split; [more_filters; reflexivity|]);
    eexists;
    (split;
     [ repeat (apply ends_cons; [reflexivity|]); apply ends_here
     | more_filters; reflexivity ]).
Qed.

Lemma projection_precedes_the_engine_witness :
  let a := with_random_basis
             (allknn_args "ref.csv" 2 (Some "query.csv")
                true false false false) in
  let w := disk_with [{| qr_ok := true; det_nonneg := true |}] in
  outcome (AllkNN.main a w) = Ok tt /\
  projections (trace (AllkNN.main a w)) =
    [Projected RefSet; Projected QuerySet].
Proof.
  cbv zeta. split; [reflexivity|].
  apply (projection_precedes_the_engine
           (with_random_basis
              (allknn_args "ref.csv" 2 (Some "query.csv")
                 true false false false))
           (disk_with [{| qr_ok := true; det_nonneg := true |}])
           eq_refl).
Defined.

(** X12.  With the random basis and a query matrix whose number of rows is
    not that of the reference matrix, a run of allknn never completes: the
    product with the query matrix stops it, or the loop goes on; nothing is
    built, searched or saved. *)
Theorem random_basis_stops_on_row_mismatch (a : AllkNN.Args) (w : World)
    (f : string) (referenceData queryData : mat) :
  AllkNN.random_basis a = true ->
  files w (AllkNN.reference_file a) = Some referenceData ->
  AllkNN.query_file a = Some f -> f <> "" ->
  files w f = Some queryData ->
  n_rows referenceData <> n_rows queryData ->
  outcome (AllkNN.main a w) <> Ok tt /\
  engine (trace (AllkNN.main a w)) = [] /\
  saves (trace (AllkNN.main a w)) = [].
Proof.
  destruct a as [rf df nf k0 qf ls nv sm ct rt rb sd]; cbn.
  intros -> Hr -> Hf Hq Hne. unfold_allknn. rewrite Hr. cbn.
  destruct f as [|c s]; [congruence|]. cbn. rewrite Hq. cbn.
  pose proof (random_basis_loop_mismatch (draws w) (String c s)
                referenceData queryData Hf Hne) as Hloop.
  pose proof (random_basis_loop_events (draws w) (String c s)
                referenceData queryData) as E.
  destruct (AllkNN.random_basis_loop (draws w) (String c s)
              referenceData queryData) as [t [x|e]];
    [exfalso; exact (Hloop x eq_refl)|].
  cbn in E.
  split_run; filters; (split; [discriminate | split; reflexivity]).
Qed.

Lemma random_basis_stops_on_row_mismatch_witness :
  let a := with_random_basis
             (allknn_args "ref.csv" 2 (Some "query2d.csv")
                false false false false) in
  let w := disk_with [{| qr_ok := true; det_nonneg := true |}] in
  n_rows (Mat 3 5) <> n_rows (Mat 2 4) /\
  outcome (AllkNN.main a w) = Stop ArmaLogicError /\
  engine (trace (AllkNN.main a w)) = [].
Proof.
  cbv zeta. split; [cbn; discriminate|]. split; [reflexivity|].
  apply (random_basis_stops_on_row_mismatch
           (with_random_basis
              (allknn_args "ref.csv" 2 (Some "query2d.csv")
                 false false false false))
           (disk_with [{| qr_ok := true; det_nonneg := true |}])
           "query2d.csv" (Mat 3 5) (Mat 2 4));
    try reflexivity; cbn; discriminate.
Defined.

(** ** The seed *)

(** X13.  allknn seeds the random generator exactly once, before it loads
    anything and whatever happens next: from the clock when no seed or the
    seed 0 was passed, and otherwise with the seed of the command line
    converted to a [size_t], so that a negative seed wraps around. *)
Theorem seeded_first_and_once (a : AllkNN.Args) (w : World) :
  exists rest,
    trace (AllkNN.main a w) =
      RandomSeed match AllkNN.seed a with
                 | Some 0%Z | None => None
                 | Some s => Some (size_t_of_int s)
                 end :: rest /\
    seeds rest = [].
Proof.
  destruct a as [rf df nf k0 qf ls nv sm ct rt rb sd]; cbn.
  unfold_allknn.
  destruct sd as [[|s|s]|], qf as [[|c s']|]; cbn - [size_t_of_int];
    split_run_full;
    eexists; (split; [reflexivity | more_filters; reflexivity]).
Qed.

(** ** Files that are missing and values out of range *)

(** X14.  When the reference file cannot be loaded the run is fatal on that
    file; no other file is looked at and nothing is checked, built, searched
    or saved. *)
Theorem missing_reference_file_is_fatal (p : Program) (w : World) :
  files w (p_reference_file p) = None ->
  outcome (run p w) = Stop Fatal /\
  fatal_logs (trace (run p w)) = [LogFatal (CannotLoad (p_reference_file p))] /\
  query_loads (trace (run p w)) = [] /\
  engine (trace (run p w)) = [] /\
  saves (trace (run p w)) = [].
Proof.
  destruct p as [a|a]; cbn [p_reference_file run]; intros Hr.
  - unfold AllkNN.main, Load. rewrite Hr. cbn. auto.
  - unfold FastMKS.main, Load. rewrite Hr. cbn. auto.
Qed.

Lemma missing_reference_file_is_fatal_witness :
  let p := Fastmks (fastmks_args "nowhere.csv" 2 (Some "query.csv") None
                      false false) in
  files disk (p_reference_file p) = None /\
  outcome (run p disk) = Stop Fatal.
Proof.
  cbv zeta. split; [reflexivity|].
  apply (missing_reference_file_is_fatal
           (Fastmks (fastmks_args "nowhere.csv" 2 (Some "query.csv") None
                       false false)) disk eq_refl).
Defined.

(** X15.  A [k] above the number of reference points is fatal with the message
    on [k], and nothing is built, searched or saved.  fastmks finds it before
    it looks at the kernel name or at the query file; allknn has loaded the
    query file, if there is one, before. *)
Theorem k_above_reference_is_reported (p : Program) (w : World)
    (referenceData : mat) :
  files w (p_reference_file p) = Some referenceData ->
  (n_cols referenceData < p_k p)%N ->
  match p with
  | Allknn a =>
      GetParam "" (AllkNN.query_file a) = "" \/
      exists queryData,
        files w (GetParam "" (AllkNN.query_file a)) = Some queryData
  | Fastmks _ => True
  end ->
  outcome (run p w) = Stop Fatal /\
  fatal_logs (trace (run p w)) =
    [LogFatal (InvalidK (p_k p) (n_cols referenceData))] /\
  engine (trace (run p w)) = [] /\
  saves (trace (run p w)) = [] /\
  match p with
  | Allknn _ => True
  | Fastmks _ => query_loads (trace (run p w)) = []
  end.
Proof.
  destruct p as [a|a]; cbn [p_reference_file p_k run];
    intros Hr Hk Hq; apply N.ltb_lt in Hk.
  - unfold AllkNN.main, Load. rewrite Hr.
    destruct Hq as [-> | [queryData Hq]].
    + cbn. rewrite Hk. cbn. auto.
    + destruct (negb (GetParam "" (AllkNN.query_file a) =? "")).
      * rewrite Hq. cbn. rewrite Hk. cbn. auto.
      * cbn. rewrite Hk. cbn. auto.
  - unfold FastMKS.main, Load. rewrite Hr. cbn. rewrite Hk. cbn. auto.
Qed.

Lemma k_above_reference_is_reported_witness :
  let p := Fastmks (fastmks_args "ref.csv" 6 (Some "nowhere.csv")
                      (Some "laplace") false false) in
  files disk "nowhere.csv" = None /\
  FastMKS.kernel_check "laplace" = true /\
  outcome (run p disk) = Stop Fatal /\
  fatal_logs (trace (run p disk)) = [LogFatal (InvalidK 6 5)].
Proof.
  cbv zeta. split; [reflexivity|]. split; [reflexivity|].
  destruct (k_above_reference_is_reported
              (Fastmks (fastmks_args "ref.csv" 6 (Some "nowhere.csv")
                          (Some "laplace") false false))
              disk (Mat 3 5)) as (H1 & H2 & _).
  - reflexivity.
  - cbn. lia.
  - exact I.
  - split; [exact H1 | exact H2].
Defined.

(** X16.  A query file that cannot be loaded is fatal on that file, and
    nothing is built, searched or saved.  allknn finds it before it checks
    [k]; fastmks only after [k] and the kernel name have passed their
    checks. *)
Theorem missing_query_file_is_fatal (p : Program) (w : World)
    (referenceData : mat) (f : string) :
  files w (p_reference_file p) = Some referenceData ->
  p_query_file p = Some f ->
  files w f = None ->
  match p with
  | Allknn a => f <> ""
  | Fastmks a =>
      (p_k p <= n_cols referenceData)%N /\
      FastMKS.kernel_check (GetParam "linear" (FastMKS.kernel a)) = false
  end ->
  outcome (run p w) = Stop Fatal /\
  fatal_logs (trace (run p w)) = [LogFatal (CannotLoad f)] /\
  engine (trace (run p w)) = [] /\
  saves (trace (run p w)) = [].
Proof.
  destruct p as [a|a]; cbn [p_reference_file p_query_file p_k run].
  - destruct a as [rf df nf k0 qf ls nv sm ct rt rb sd]; cbn.
    intros Hr -> Hq Hf. unfold AllkNN.main, Load; cbn. rewrite Hr.
    destruct f as [|c s]; [congruence|]. cbn. rewrite Hq. cbn. auto.
  - destruct a as [rf qf k0 kf xf kn nv sg bs dg os bw sc]; cbn.
    intros Hr -> Hq [Hk Hkn]. apply N.ltb_ge in Hk.
    unfold FastMKS.main, Load; cbn. rewrite Hr. cbn. rewrite Hk. cbn.
    rewrite Hkn. cbn. rewrite Hq. cbn. auto.
Qed.

Lemma missing_query_file_is_fatal_witness :
  let p := Allknn (allknn_args "ref.csv" 9 (Some "nowhere.csv")
                     false false false false) in
  (n_cols (Mat 3 5) < p_k p)%N /\
  outcome (run p disk) = Stop Fatal /\
  fatal_logs (trace (run p disk)) = [LogFatal (CannotLoad "nowhere.csv")].
Proof.
  cbv zeta. split; [cbn; lia|].
  destruct (missing_query_file_is_fatal
              (Allknn (allknn_args "ref.csv" 9 (Some "nowhere.csv")
                         false false false false))
              disk (Mat 3 5) "nowhere.csv") as (H1 & H2 & _).
  - reflexivity.
  - reflexivity.
  - reflexivity.
  - discriminate.
  - split; [exact H1 | exact H2].
Defined.

(** ** The kernel of a run of fastmks *)

(** The dispatch runs one kernel, for a supported name, or nothing. *)
Lemma dispatch_cases name dg os bw sc (run : Kernel -> Run unit) :
  (In name supported_kernels /\
   exists K, FastMKS.dispatch name dg os bw sc run = run K) \/
  (~ In name supported_kernels /\
   FastMKS.dispatch name dg os bw sc run = ret tt).
Proof.
  unfold FastMKS.dispatch, supported_kernels. cbn [In].
  repeat match goal with
  | |- context [?s =? ?c] =>
      destruct (String.eqb_spec s c);
      [left; split; [subst; auto 10 | eexists; reflexivity] |]
  end.
  right. split; [intuition congruence | reflexivity].
Qed.

(** The dispatch only looks at the parameters of the kernel it runs. *)
Lemma dispatch_agrees name dg os bw sc dg' os' bw' sc'
    (run : Kernel -> Run unit) :
  (name = "polynomial" -> dg' = dg /\ os' = os) ->
  (In name ["gaussian"; "epanechnikov"; "triangular"] -> bw' = bw) ->
  (name = "hyptan" -> sc' = sc /\ os' = os) ->
  FastMKS.dispatch name dg' os' bw' sc' run =
  FastMKS.dispatch name dg os bw sc run.
Proof.
  intros Hp Hb Hh. unfold FastMKS.dispatch. cbn [In] in Hb.
  repeat match goal with
  | |- context [?s =? ?c] =>
      destruct (String.eqb_spec s c);
      [ subst;
        try (destruct Hp as [-> ->]; [reflexivity|]);
        try (destruct Hh as [-> ->]; [reflexivity|]);
        try (rewrite Hb by auto);
        reflexivity |]
  end.
  reflexivity.
Qed.

Arguments FastMKS.dispatch : simpl never.

Ltac split_dispatch :=
  match goal with
  | |- context [FastMKS.dispatch ?n ?a ?b ?c ?d ?r] =>
      let K := fresh "K" in
      destruct (dispatch_cases n a b c d r) as [[_ [K ->]] | [_ ->]]
  end.

Ltac unfold_fastmks_run :=
  unfold FastMKS.RunFastMKS1, FastMKS.RunFastMKS2; cbn.

(** X17.  Without the naive flag a run of fastmks that searches makes its
    calls into the engine in one of three ways, with one kernel and one base
    throughout: the reference tree, the search object on it and the search of
    the reference set against itself; or, with the single-tree flag, the
    search of the raw query matrix; or, without it, a query tree with the
    kernel and base of the reference tree and the search of that tree.
    Without a query file it is the first. *)
Theorem fastmks_tree_search (a : FastMKS.Args) (w : World) :
  FastMKS.naive a = false ->
  searches (trace (FastMKS.main a w)) <> [] ->
  exists K,
    let m := IPMetric K in
    let T := CoverTree m (GetParam 2.0%Q (FastMKS.base a)) in
    let k := size_t_of_int (FastMKS.k a) in
    let self := [BuildTree T RefSet;
                 Construct m (OnTree (FastMKS.single a));
                 Search SelfQuery k Final] in
    (engine (trace (FastMKS.main a w)) = self \/
     (FastMKS.single a = true /\
      engine (trace (FastMKS.main a w)) =
        [BuildTree T RefSet; Construct m (OnTree true);
         Search QueryPoints k Final]) \/
     (FastMKS.single a = false /\
      engine (trace (FastMKS.main a w)) =
        [BuildTree T RefSet; Construct m (OnTree false);
         BuildTree T QuerySet; Search QueryTree k Final])) /\
    (FastMKS.query_file a = None ->
     engine (trace (FastMKS.main a w)) = self).
Proof.
  destruct a as [rf qf k0 kf xf kn nv sg bs dg os bw sc]; cbn.
  intros ->. unfold FastMKS.main, Load, when; cbn.
  destruct sg, qf as [f|]; cbn; split_run_full;
    try split_dispatch; unfold_fastmks_run; split_run_full;
    filters; try congruence; intros _;
    exists K; cbn;
    (split; [auto 6 | intros; solve [reflexivity | discriminate]]).
Qed.

Lemma fastmks_tree_search_witness :
  let a := fastmks_args "ref.csv" 2 (Some "query.csv") (Some "cosine")
             false true in
  searches (trace (FastMKS.main a disk)) <> [] /\
  engine (trace (FastMKS.main a disk)) =
    [BuildTree (CoverTree (IPMetric CosineDistance) 2.0%Q) RefSet;
     Construct (IPMetric CosineDistance) (OnTree true);
     Search QueryPoints 2 Final].
Proof.
  cbv zeta.
  assert (H : searches (trace (FastMKS.main
                (fastmks_args "ref.csv" 2 (Some "query.csv") (Some "cosine")
                   false true) disk)) <> []).
  { vm_compute; discriminate. }
  split; [exact H|].
  destruct (fastmks_tree_search
              (fastmks_args "ref.csv" 2 (Some "query.csv") (Some "cosine")
                 false true) disk eq_refl H) as [K _].
  reflexivity.
Defined.

(** X18.  A run of fastmks only depends on the kernel parameters that its
    kernel takes: the degree and the offset for the polynomial kernel, the
    bandwidth for the Gaussian, Epanechnikov and triangular kernels, the scale
    and the offset for the hyperbolic tangent kernel, and none for the linear
    kernel and the cosine distance.  Changing any other of them changes
    nothing. *)
Theorem unused_kernel_parameters (a : FastMKS.Args) (w : World)
    (dg os bw sc : option double) :
  let name := GetParam "linear" (FastMKS.kernel a) in
  (name = "polynomial" ->
   GetParam 2.0%Q dg = GetParam 2.0%Q (FastMKS.degree a) /\
   GetParam 0.0%Q os = GetParam 0.0%Q (FastMKS.offset a)) ->
  (In name ["gaussian"; "epanechnikov"; "triangular"] ->
   GetParam 1.0%Q bw = GetParam 1.0%Q (FastMKS.bandwidth a)) ->
  (name = "hyptan" ->
   GetParam 1.0%Q sc = GetParam 1.0%Q (FastMKS.scale a) /\
   GetParam 0.0%Q os = GetParam 0.0%Q (FastMKS.offset a)) ->
  FastMKS.main (with_kernel_parameters a dg os bw sc) w = FastMKS.main a w.
Proof.
  destruct a as [rf qf k0 kf xf kn nv sg bs dg0 os0 bw0 sc0]; cbn.
  intros Hp Hb Hh. unfold FastMKS.main; cbn.
  rewrite !(dispatch_agrees (GetParam "linear" kn)
              (GetParam 2.0%Q dg0) (GetParam 0.0%Q os0)
              (GetParam 1.0%Q bw0) (GetParam 1.0%Q sc0)
              (GetParam 2.0%Q dg) (GetParam 0.0%Q os)
              (GetParam 1.0%Q bw) (GetParam 1.0%Q sc)) by assumption.
  reflexivity.
Qed.

Lemma unused_kernel_parameters_witness :
  let a := fastmks_args "ref.csv" 2 None (Some "gaussian") false false in
  FastMKS.main
    (with_kernel_parameters a (Some 3.0%Q) (Some 1.0%Q) None (Some 5.0%Q))
    disk =
  FastMKS.main a disk.
Proof.
  cbv zeta.
  apply (unused_kernel_parameters
           (fastmks_args "ref.csv" 2 None (Some "gaussian") false false)
           disk (Some 3.0%Q) (Some 1.0%Q) None (Some 5.0%Q)).
  - cbn. discriminate.
  - reflexivity.
  - cbn. discriminate.
Defined.

(** X19.  When no kernel name is passed, every tree and every search object
    of a run of fastmks is on the linear kernel. *)
Theorem default_kernel_is_linear (a : FastMKS.Args) (w : World)
    (e : Event) :
  FastMKS.kernel a = None ->
  In e (trace (FastMKS.main a w)) ->
  match e with
  | BuildTree (CoverTree m _) _ | Construct m _ => m = IPMetric LinearKernel
  | BuildTree _ _ => False
  | _ => True
  end.
Proof.
  destruct a as [rf qf k0 kf xf kn nv sg bs dg os bw sc]; cbn.
  intros ->. unfold FastMKS.main, Load, when; cbn.
  unfold FastMKS.dispatch; cbn. unfold_fastmks_run.
  split_run_full; in_trace; subst e; exact I || reflexivity.
Qed.

Lemma default_kernel_is_linear_witness :
  let a := fastmks_args "ref.csv" 2 None None true false in
  FastMKS.kernel a = None /\
  In (Construct (IPMetric LinearKernel) (OnMatrix false true))
     (trace (FastMKS.main a disk)) /\
  IPMetric LinearKernel = IPMetric LinearKernel.
Proof.
  cbv zeta. split; [reflexivity|].
  assert (H : In (Construct (IPMetric LinearKernel) (OnMatrix false true))
                (trace (FastMKS.main
                          (fastmks_args "ref.csv" 2 None None true false)
                          disk))).
  { vm_compute. auto 10. }
  split; [exact H|].
  exact (default_kernel_is_linear
           (fastmks_args "ref.csv" 2 None None true false) disk _
           eq_refl H).
Defined.

(** ** One search *)

(** X20.  A run searches at most once.  When it does, it has constructed
    exactly one search object, and it completes. *)
Theorem one_search_per_run (p : Program) (w : World) :
  searches (trace (run p w)) = [] \/
  (exists m src q out,
     constructs (trace (run p w)) = [Construct m src] /\
     searches (trace (run p w)) = [Search q (p_k p) out]) /\
  outcome (run p w) = Ok tt.
Proof.
  destruct p as [a|a]; cbn [p_k run].
  - destruct a as [rf df nf k0 qf ls nv sm ct rt rb sd]; cbn.
    unfold_allknn.
    destruct qf as [[|c s]|]; cbn; split_run_full; filters;
      solve [ left; reflexivity
            | right; split; [do 4 eexists; split; reflexivity | reflexivity] ].
  - destruct a as [rf qf k0 kf xf kn nv sg bs dg os bw sc]; cbn.
    unfold FastMKS.main, Load, when; cbn.
    split_run_full; try split_dispatch; unfold_fastmks_run; split_run_full;
      filters;
      solve [ left; reflexivity
            | right; split; [do 4 eexists; split; reflexivity | reflexivity] ].
Qed.

(** ** A leaf size that is not used *)

(** X21.  On the naive path and on the cover-tree path the leaf size is only
    checked: any two leaf sizes of at least 1 give the same run. *)
Theorem unused_leaf_size (a : AllkNN.Args) (w : World) (ls : option Z) :
  AllkNN.naive a = true \/ AllkNN.cover_tree a = true ->
  (1 <= GetParam 20 (AllkNN.leaf_size a))%Z ->
  (1 <= GetParam 20 ls)%Z ->
  AllkNN.main (with_leaf_size a ls) w = AllkNN.main a w.
Proof.
  destruct a as [rf df nf k0 qf ls0 nv sm ct rt rb sd]; cbn.
  intros Hflag H0 H1.
  apply Z.ltb_ge in H0. apply Z.ltb_ge in H1.
  unfold AllkNN.main; cbn. rewrite H0, H1.
  destruct Hflag as [-> | ->]; [reflexivity|].
  destruct nv; reflexivity.
Qed.

Lemma unused_leaf_size_witness :
  let a := allknn_args "ref.csv" 2 None false false true false in
  AllkNN.main (with_leaf_size a (Some 1%Z)) disk = AllkNN.main a disk.
Proof.
  cbv zeta.
  apply (unused_leaf_size
           (allknn_args "ref.csv" 2 None false false true false)
           disk (Some 1%Z)).
  - right. reflexivity.
  - cbn. lia.
  - cbn. lia.
Defined.

(** ** Runs that are stopped, at concrete command lines *)

Lemma negative_k_fatal_witness :
  let p := Allknn (allknn_args "ref.csv" (-1) None false false false false) in
  p_k p = 18446744073709551615%N /\
  outcome (run p disk) = Stop Fatal.
Proof.
  cbv zeta. split; [reflexivity|].
  apply (negative_k_fatal
           (Allknn (allknn_args "ref.csv" (-1) None false false false false))
           disk (Mat 3 5) (-1)%Z).
  - reflexivity.
  - cbn. lia.
  - lia.
  - reflexivity.
Defined.

Lemma search_needs_supported_kernel_witness :
  let a := fastmks_args "ref.csv" 2 None (Some "triangular") false false in
  searches (trace (FastMKS.main a disk)) <> [] /\
  In (GetParam "linear" (FastMKS.kernel a)) supported_kernels.
Proof.
  cbv zeta.
  assert (H : searches (trace (FastMKS.main
                (fastmks_args "ref.csv" 2 None (Some "triangular")
                   false false) disk)) <> []).
  { vm_compute; discriminate. }
  split; [exact H|].
  exact (search_needs_supported_kernel
           (fastmks_args "ref.csv" 2 None (Some "triangular") false false)
           disk H).
Defined.

Lemma stopped_run_leaves_nothing_witness :
  let p := Allknn (with_random_basis
                     (allknn_args "ref.csv" 2 None false false false false)) in
  outcome (run p disk) = Stop Spinning /\
  searches (trace (run p disk)) = [] /\ saves (trace (run p disk)) = [].
Proof.
  cbv zeta. split; [reflexivity|].
  apply (stopped_run_leaves_nothing
           (Allknn (with_random_basis
                      (allknn_args "ref.csv" 2 None
                         false false false false)))
           disk Spinning eq_refl).
Defined.
